(** * xlsx2docx-byColumns: a shallow embedding of [src/xlsx2docx-byColumns.py]

    The script reads command rows from a spreadsheet and applies them to
    copies of a Word template, one copy per content column.  This file
    embeds its functions and proves properties of them.

    Conventions of the embedding.

    - A spreadsheet cell value is [None] (an empty cell, Python's [None]) or
      [Some s] (a text cell).  Numeric, boolean and date cells are outside
      the model.
    - A Python object that is mutated in place (a paragraph, a document, the
      file system) is threaded through a _mutator_: a function from the
      object to the object after the call, the lines printed by the call and
      the exception that left it, if any.  When an exception leaves, the
      object is returned as it was at that moment, which is what an in-place
      mutation followed by [raise] leaves behind.
    - [print] appends one entry (the printed line, without the final newline)
      to the output.
    - python-docx, openpyxl, tomlkit, [os], [os.path] and [time] are
      libraries, not code of this repository; the definitions of the modules
      [Python], [Path], [Clock], [Docx], [Xlsx], [System] and [Toml] model
      the behaviour the script relies on.  [os.path] is [posixpath].  In a
      document every section owns its header and its footer and no table
      cell is merged, so that no paragraph is reachable along two paths.
    - [openpyxl.load_workbook] and [str] of the arrays of a configuration
      are parameters of [xlx2docx] and [main].  A configuration value has the
      type the default configuration gives it; a configuration file holds a
      well-formed configuration. *)

From Stdlib Require Import ZArith List String Ascii Bool Sorted Lia.
Import ListNotations.

Local Open Scope string_scope.
Local Open Scope list_scope.

(** ** Python values, exceptions and string helpers *)

Module Python.

(** A cell value: Python's [None] or a [str]. *)
Definition value := option string.

(** Exceptions raised by the modelled code, with their message or key. *)
Inductive exn :=
| TypeError
| ValueError (msg : string)
| KeyError (key : string)
| FileNotFoundError (path : string)
| PackageNotFoundError (path : string).

(** Truth value of a cell: [None] and the empty string are false. *)
Definition truthy (v : value) : bool :=
  match v with
  | Some (String _ _) => true
  | _ => false
  end.

(** [str(v)], as [print] and [format] render a value. *)
Definition str (v : value) : string :=
  match v with
  | None => "None"
  | Some s => s
  end.

(** [needle in hay] for two strings: [needle] occurs in [hay] at some
    offset. *)
Fixpoint contains (needle hay : string) : bool :=
  prefix needle hay ||
  match hay with
  | EmptyString => false
  | String _ rest => contains needle rest
  end.

(** [v in text] where [v] is a cell value: a [None] left operand raises
    [TypeError]. *)
Definition py_in (v : value) (text : string) : exn + bool :=
  match v with
  | None => inl TypeError
  | Some s => inr (contains s text)
  end.

(** [v != s] for a cell value and a string literal. *)
Definition differs (v : value) (s : string) : bool :=
  match v with
  | None => true
  | Some t => negb (String.eqb t s)
  end.

(** [s[:k]] and [s[k:]] for [0 <= k]. *)
Fixpoint take (k : nat) (s : string) : string :=
  match k, s with
  | S k', String a r => String a (take k' r)
  | _, _ => EmptyString
  end.

Fixpoint drop (k : nat) (s : string) : string :=
  match k, s with
  | S k', String _ r => drop k' r
  | _, _ => s
  end.

(** [s.rfind(c)]: index of the last occurrence of the character [c], or
    [-1]. *)
Fixpoint rfind_from (c : ascii) (s : string) (i acc : Z) : Z :=
  match s with
  | EmptyString => acc
  | String a r => rfind_from c r (i + 1) (if Ascii.eqb a c then i else acc)
  end.

Definition rfind (c : ascii) (s : string) : Z := rfind_from c s 0 (-1).

(** [s.rstrip(c)]: [s] without its trailing run of [c]. *)
Fixpoint rstrip (c : ascii) (s : string) : string :=
  match s with
  | EmptyString => EmptyString
  | String a r =>
      match rstrip c r with
      | EmptyString => if Ascii.eqb a c then EmptyString else String a EmptyString
      | r' => String a r'
      end
  end.

(** All characters of [s] are [c] (as in [head == sep*len(head)]). *)
Fixpoint all_chars (c : ascii) (s : string) : bool :=
  match s with
  | EmptyString => true
  | String a r => Ascii.eqb a c && all_chars c r
  end.

(** [range(a, b, 1)]. *)
Definition range (a b : Z) : list Z :=
  map (fun i => (a + Z.of_nat i)%Z) (seq 0 (Z.to_nat (b - a))).

(** The tabulator and the newline of the script's [print] calls. *)
Definition tab : string := String (ascii_of_nat 9) EmptyString.
Definition nl : string := String (ascii_of_nat 10) EmptyString.

(** [print(a, b, ..., sep=sep)] of already rendered arguments. *)
Definition print_line (sep : string) (args : list string) : string :=
  String.concat sep args.

End Python.
Import Python.

(** ** [os.path] (posixpath) *)

Module Path.

Definition sep : ascii := "/"%char.
Definition extsep : ascii := "."%char.

(** [genericpath._splitext(p, '/', None, '.')]: the extension starts at the
    last dot of the last path component, unless that component has only dots
    before it. *)
Definition splitext (p : string) : string * string :=
  let sepIndex := rfind sep p in
  let dotIndex := rfind extsep p in
  if (sepIndex <? dotIndex)%Z then
    let leading := take (Z.to_nat (dotIndex - (sepIndex + 1)))
                        (drop (Z.to_nat (sepIndex + 1)) p) in
    if all_chars extsep leading then (p, EmptyString)
    else (take (Z.to_nat dotIndex) p, drop (Z.to_nat dotIndex) p)
  else (p, EmptyString).

(** [posixpath.dirname(p)]. *)
Definition dirname (p : string) : string :=
  let i := (rfind sep p + 1)%Z in
  let head := take (Z.to_nat i) p in
  match head with
  | EmptyString => head
  | _ => if all_chars sep head then head else rstrip sep head
  end.

End Path.

(** ** [time]: broken-down local time and [strftime] *)

Module Clock.

Local Open Scope Z_scope.

(** The fields of [time.struct_time] that the format uses. *)
Record struct_time := mk_struct_time {
  tm_year : Z;
  tm_mon : Z;
  tm_mday : Z;
  tm_hour : Z;
  tm_min : Z;
  tm_sec : Z
}.

(** Calendar date of a day number counted from 1970-01-01 (proleptic
    Gregorian calendar), as the C library's [gmtime] computes it. *)
Definition civil_from_days (days : Z) : Z * Z * Z :=
  let z := days + 719468 in
  let era := z / 146097 in
  let doe := z - era * 146097 in
  let yoe := (doe - doe / 1460 + doe / 36524 - doe / 146096) / 365 in
  let doy := doe - (365 * yoe + yoe / 4 - yoe / 100) in
  let mp := (5 * doy + 2) / 153 in
  let d := doy - (153 * mp + 2) / 5 + 1 in
  let m := if mp <? 10 then mp + 3 else mp - 9 in
  ((yoe + era * 400) + (if m <=? 2 then 1 else 0), m, d).

(** [time.gmtime(secs)] for whole seconds since the epoch. *)
Definition gmtime (secs : Z) : struct_time :=
  let '(y, m, d) := civil_from_days (secs / 86400) in
  let s := secs mod 86400 in
  mk_struct_time y m d (s / 3600) ((s mod 3600) / 60) (s mod 60).

(** The clock is read in nanoseconds since the epoch ([time.time_ns]);
    [time.localtime()] sees the whole seconds of it, shifted by the offset of
    the local time zone (a zone without daylight saving). *)
Definition localtime (utcoffset : Z) (now_ns : Z) : struct_time :=
  gmtime (now_ns / 1000000000 + utcoffset).

Definition digit (n : Z) : ascii := ascii_of_nat (48 + Z.to_nat n).

(** Two decimal digits, zero padded: [%m], [%d], [%H], [%M], [%S]. *)
Definition d2 (n : Z) : string :=
  String (digit (n / 10)) (String (digit (n mod 10)) EmptyString).

(** Decimal digits without padding: [%Y] (for a year that is not
    negative). *)
Fixpoint dec_fuel (fuel : nat) (n : Z) : string :=
  match fuel with
  | O => EmptyString
  | S f =>
      if n <? 10 then String (digit n) EmptyString
      else dec_fuel f (n / 10) ++ String (digit (n mod 10)) EmptyString
  end.

Definition dec (n : Z) : string := dec_fuel (S (Z.to_nat (Z.log2 n))) n.

(** [time.strftime("%Y-%m-%d_%H%M%S", t)]. *)
Definition strftime (t : struct_time) : string :=
  dec (tm_year t) ++ "-" ++ d2 (tm_mon t) ++ "-" ++ d2 (tm_mday t) ++ "_" ++
  d2 (tm_hour t) ++ d2 (tm_min t) ++ d2 (tm_sec t).

(** A broken-down time whose year has four digits and whose other fields are
    in the range the C library gives them. *)
Definition valid_time (t : struct_time) : Prop :=
  1000 <= tm_year t <= 9999 /\ 1 <= tm_mon t <= 12 /\ 1 <= tm_mday t <= 31 /\
  0 <= tm_hour t <= 23 /\ 0 <= tm_min t <= 59 /\ 0 <= tm_sec t <= 61.

End Clock.

(** ** The script: timestamped file names *)

(** [getCurrentTimeAsString()], at the clock reading [now_ns] in a zone
    [utcoffset] seconds east of UTC. *)
Definition getCurrentTimeAsString (utcoffset now_ns : Z) : string :=
  Clock.strftime (Clock.localtime utcoffset now_ns).

(** [appendTimestampToFilename(filename)]:
    ["{name}_{uid}{ext}".format(...)] on the result of [os.path.splitext]. *)
Definition appendTimestampToFilename (utcoffset now_ns : Z) (filename : string) : string :=
  let '(name, ext) := Path.splitext filename in
  name ++ "_" ++ getCurrentTimeAsString utcoffset now_ns ++ ext.


(** ** Mutators: in-place mutation, printing and exceptions *)

Section Mutators.

Context {A : Type}.

(** The object after the call, the printed lines, the exception raised. *)
Definition outcome (X : Type) : Type := X * list string * option exn.

Definition mut (X : Type) : Type := X -> outcome X.

(** [pass]. *)
Definition skip : mut A := fun a => (a, [], None).

(** [print(...)]. *)
Definition say (line : string) : mut A := fun a => (a, [line], None).

(** Two statements in sequence: the second runs when the first returns. *)
Definition andthen (f g : mut A) : mut A :=
  fun a =>
    match f a with
    | (a1, o1, Some e) => (a1, o1, Some e)
    | (a1, o1, None) => let '(a2, o2, e2) := g a1 in (a2, o1 ++ o2, e2)
    end.

(** [for x in xs: f(x)] over the live elements of a container. *)
Fixpoint for_each (f : mut A) (l : list A) : outcome (list A) :=
  match l with
  | [] => ([], [], None)
  | x :: xs =>
      match f x with
      | (x', o1, Some e) => (x' :: xs, o1, Some e)
      | (x', o1, None) =>
          let '(xs', o2, e) := for_each f xs in (x' :: xs', o1 ++ o2, e)
      end
  end.

(** [for k in ks: f(k)] where every pass works on the same object. *)
Fixpoint for_in {K : Type} (f : K -> mut A) (ks : list K) : mut A :=
  match ks with
  | [] => skip
  | k :: ks' => andthen (f k) (for_in f ks')
  end.

End Mutators.

Notation "f ;; g" := (andthen f g) (at level 61, right associativity).

(** A statement about a part [B] of an object [A] (an attribute). *)
Definition focus {A B : Type} (get : A -> B) (set : B -> A -> A) (f : mut B) : mut A :=
  fun a => let '(b, o, e) := f (get a) in (set b a, o, e).

(** ** python-docx: documents *)

Module Docx.

(** A paragraph: its text and the id of its paragraph style ([None] when it
    has the default paragraph style). *)
Record paragraph := mk_paragraph {
  text : string;
  style_id : option string
}.

(** The content of a body, a header, a footer or a table cell: paragraphs and
    tables in document order.  A table is a list of rows, a row a list of
    cells. *)
#[warnings="-register-all"]
Inductive block :=
| Para (p : paragraph)
| Tbl (rows : list (list (list block))).

Definition cell := list block.
Definition row := list cell.
Definition table := list row.

(** [container.paragraphs] and [container.tables]: the direct children of
    each kind, in document order. *)
Definition paragraphs (bs : list block) : list paragraph :=
  flat_map (fun b => match b with Para p => [p] | Tbl _ => [] end) bs.

Definition tables (bs : list block) : list table :=
  flat_map (fun b => match b with Para _ => [] | Tbl t => [t] end) bs.

Inductive style_type := PARAGRAPH | CHARACTER | TABLE | LIST.

Definition style_type_eqb (a b : style_type) : bool :=
  match a, b with
  | PARAGRAPH, PARAGRAPH | CHARACTER, CHARACTER | TABLE, TABLE | LIST, LIST => true
  | _, _ => false
  end.

(** A style definition of the template. *)
Record style := mk_style {
  style_name : string;
  style_style_id : string;
  style_kind : style_type;
  style_default : bool
}.

Record section := mk_section {
  header : list block;
  footer : list block
}.

Record document := mk_document {
  body : list block;
  sections : list section;
  styles : list style;
  author : string
}.

Definition set_body (b : list block) (d : document) : document :=
  mk_document b (sections d) (styles d) (author d).

Definition set_sections (s : list section) (d : document) : document :=
  mk_document (body d) s (styles d) (author d).

Definition set_author (a : string) (d : document) : document :=
  mk_document (body d) (sections d) (styles d) a.

Definition set_header (h : list block) (s : section) : section :=
  mk_section h (footer s).

Definition set_footer (f : list block) (s : section) : section :=
  mk_section (header s) f.

(** [for para in container.paragraphs: f(para)]. *)
Definition each_paragraph (f : mut paragraph) : mut (list block) :=
  for_each (fun b =>
    match b with
    | Para p => let '(p', o, e) := f p in (Para p', o, e)
    | Tbl _ => (b, [], None)
    end).

(** [for table in container.tables: f(table)]. *)
Definition each_table (f : mut table) : mut (list block) :=
  for_each (fun b =>
    match b with
    | Para _ => (b, [], None)
    | Tbl t => let '(t', o, e) := f t in (Tbl t', o, e)
    end).

(** [styles[name]]: the style of that name, else (deprecated) of that id,
    else [KeyError]. *)
Definition lookup_style (ss : list style) (name : string) : exn + style :=
  match find (fun s => String.eqb (style_name s) name) ss with
  | Some s => inr s
  | None =>
      match find (fun s => String.eqb (style_style_id s) name) ss with
      | Some s => inr s
      | None => inl (KeyError ("no style with name '" ++ name ++ "'"))
      end
  end.

(** [styles.default(style_type)]: the last style of the type marked as
    default. *)
Definition default_for (ss : list style) (ty : style_type) : option style :=
  last (map Some (filter (fun s => style_type_eqb (style_kind s) ty && style_default s) ss)) None.

(** [styles.get_style_id(name, WD_STYLE_TYPE.PARAGRAPH)] for a style name:
    the id to store in the paragraph, [None] for the default style. *)
Definition get_style_id (ss : list style) (name : string) : exn + option string :=
  match lookup_style ss name with
  | inl e => inl e
  | inr s =>
      if style_type_eqb (style_kind s) PARAGRAPH then
        match default_for ss PARAGRAPH with
        | Some d =>
            if String.eqb (style_style_id d) (style_style_id s) then inr None
            else inr (Some (style_style_id s))
        | None => inr (Some (style_style_id s))
        end
      else inl (ValueError "assigned style is of another type, need type PARAGRAPH")
  end.

(** The text of the run that [add_run(content)] adds: empty when [content]
    is [None] or empty. *)
Definition run_text (content : value) : string :=
  match content with
  | Some s => s
  | None => EmptyString
  end.

(** [para.text = content]: the runs are replaced by one run. *)
Definition set_text (content : value) : mut paragraph :=
  fun p => (mk_paragraph (run_text content) (style_id p), [], None).

(** [para.style = name]. *)
Definition set_style (ss : list style) (name : string) : mut paragraph :=
  fun p =>
    match get_style_id ss name with
    | inl e => (p, [], Some e)
    | inr sid => (mk_paragraph (text p) sid, [], None)
    end.

(** [container.add_paragraph(text, style)]: a new paragraph after the last
    block; a run when [text] is true; the style when [style] is not
    [None]. *)
Definition add_paragraph (ss : list style) (content style : value) : mut (list block) :=
  fun bs =>
    let p := mk_paragraph (run_text content) None in
    match style with
    | None => (bs ++ [Para p], [], None)
    | Some name =>
        let '(p', o, e) := set_style ss name p in (bs ++ [Para p'], o, e)
    end.

End Docx.
Import Docx.

(** ** openpyxl: worksheets *)

Module Xlsx.

(** A worksheet: the cells it stores, by row and column (both from 1), and
    [max_row].  A cell that is not stored reads as [None]. *)
Record worksheet := mk_worksheet {
  max_row : Z;
  cells : list (Z * Z * value)
}.

(** The value stored at a row and a column. *)
Definition stored (ws : worksheet) (row column : Z) : value :=
  match find (fun c => (fst (fst c) =? row)%Z && (snd (fst c) =? column)%Z) (cells ws) with
  | Some c => snd c
  | None => None
  end.

(** [sheet.cell(row=row, column=column).value]. *)
Definition cell_value (ws : worksheet) (row column : Z) : exn + value :=
  if ((row <? 1) || (column <? 1))%Z then
    inl (ValueError "Row or column values must be at least 1")
  else inr (stored ws row column).

End Xlsx.
Import Xlsx.

(** ** The operating system: environment, clock, file system *)

Module System.

(** What a run reads and never changes: [os.name], [os.environ], the time
    zone, the clock (the reading of its k-th read, in nanoseconds since the
    epoch) and the template files that exist. *)
Record env := mk_env {
  os_name : string;
  environ : list (string * string);
  utcoffset : Z;
  clock : nat -> Z;
  templates : list (string * document)
}.

(** What a run changes: the number of clock reads so far, the directories
    that exist and the documents saved, with their paths, in order. *)
Record world := mk_world {
  reads : nat;
  dirs : list string;
  saved : list (string * document)
}.

Definition assoc {V : Type} (k : string) (l : list (string * V)) : option V :=
  match find (fun kv => String.eqb (fst kv) k) l with
  | Some kv => Some (snd kv)
  | None => None
  end.

(** [os.environ[key]]. *)
Definition getenv (e : env) (key : string) : exn + string :=
  match assoc key (environ e) with
  | Some v => inr v
  | None => inl (KeyError key)
  end.

(** [os.makedirs(name, exist_ok=True)]: the empty path cannot be created;
    any other directory exists afterwards. *)
Definition makedirs (name : string) : mut world :=
  fun w =>
    match name with
    | EmptyString => (w, [], Some (FileNotFoundError EmptyString))
    | _ =>
        if existsb (String.eqb name) (dirs w) then (w, [], None)
        else (mk_world (reads w) (dirs w ++ [name]) (saved w), [], None)
    end.

(** Reading the clock: the next reading of [clock]. *)
Definition tick (w : world) : world := mk_world (S (reads w)) (dirs w) (saved w).

(** [docx.Document(path)]: a fresh copy of the template stored at [path]. *)
Definition Document (e : env) (path : string) : exn + document :=
  match assoc path (templates e) with
  | Some d => inr d
  | None => inl (PackageNotFoundError path)
  end.

(** [doc.save(path)]. *)
Definition save (path : string) (d : document) (w : world) : world :=
  mk_world (reads w) (dirs w) (saved w ++ [(path, d)]).

End System.
Import System.

(** ** The script: directories and lists of file names *)

(** A statement that first evaluates an expression that may raise. *)
Definition eval {A B : Type} (r : exn + B) (k : B -> mut A) : mut A :=
  fun a =>
    match r with
    | inl e => (a, [], Some e)
    | inr b => k b a
    end.

(** [ensureDirectoryExists(filename)]. *)
Definition ensureDirectoryExists (filename : string) : mut world :=
  makedirs (Path.dirname filename).

(** [appendTimestampToFilenames(filenames)]: the local list
    [filenamesWithTimestamp] is threaded together with the world; one pass
    appends the timestamped name (reading the clock) and then ensures the
    directory of the name as configured. *)
Definition appendTimestampToFilenames (e : env) (filenames : list string)
  : mut (list string * world) :=
  for_in (fun filename =>
    (fun st : list string * world =>
       let '(acc, w) := st in
       ((acc ++ [appendTimestampToFilename (utcoffset e) (clock e (reads w)) filename],
         tick w), [], None)) ;;
    focus snd (fun w st => (fst st, w)) (ensureDirectoryExists filename))
    filenames.

(** ** The script: replacing paragraphs *)

(** [replaceInParagraph(para, replace, content, style, contextString)]; the
    styles are those of the document the paragraph belongs to. *)
Definition replaceInParagraph (ss : list style) (replace content style : value)
    (contextString : string) : mut paragraph :=
  fun para =>
    eval (py_in replace (text para)) (fun found =>
      if found then
        say (print_line EmptyString
               ["In "; contextString; ": replace_paragraph: '"; text para;
                ("' " ++ tab ++ "by '")%string; str content; "'"]) ;;
        set_text content ;;
        (if truthy style && differs style "None" then
           say (print_line EmptyString ["Set style to '"; str style; "'"]) ;;
           set_style ss (str style)
         else skip)
      else skip) para.

(** The three nested loops over a container's tables:
    [for table in c.tables: for row in table.rows: for cell in row.cells:
     for para in cell.paragraphs: f(para)]. *)
Definition each_table_paragraph (f : mut paragraph) : mut (list block) :=
  each_table (for_each (for_each (each_paragraph f))).

(** [replaceParagraphInDoc(doc, replace, content, style)]. *)
Definition replaceParagraphInDoc (replace content style : value) : mut document :=
  fun doc =>
    let visit := replaceInParagraph (styles doc) replace content style in
    (focus body set_body (each_paragraph (visit "doc.paragraphs")) ;;
     focus body set_body (each_table_paragraph (visit "doc.tables")) ;;
     focus sections set_sections (for_each (
       focus header set_header (each_paragraph (visit "section.header")) ;;
       focus header set_header (each_table_paragraph (visit "section.header.tables")) ;;
       focus footer set_footer (each_paragraph (visit "section.footer")) ;;
       focus footer set_footer (each_table_paragraph (visit "section.footer.tables")))))
    doc.

(** ** The script: the generation driver *)

(** [getUsername()]. *)
Definition getUsername (e : env) : exn + string :=
  if String.eqb (os_name e) "nt" then getenv e "USERNAME" else getenv e "USER".

(** The statement [if command: ...] of the row loop, on the four values read
    from the row. *)
Definition apply_command (command replace content style : value) : mut document :=
  if truthy command then
    if contains "replace_paragraph" (str command) then
      replaceParagraphInDoc replace content style
    else if contains "add_paragraph" (str command) then
      if truthy content then
        fun doc => focus body set_body (add_paragraph (styles doc) content style) doc
      else skip
    else
      say (print_line " " ["Unexpected object:"; str command; "with content:"; str content])
  else skip.

(** The body of [for row in range(contentStartRow, sheet.max_row+1, 1)]. *)
Definition process_row (sheet : worksheet)
    (commandColumn styleColumn replaceColumn contentColumn : Z) (row : Z) : mut document :=
  eval (cell_value sheet row commandColumn) (fun command =>
  eval (cell_value sheet row replaceColumn) (fun replace =>
  eval (cell_value sheet row contentColumn) (fun content =>
  eval (cell_value sheet row styleColumn) (fun style =>
  apply_command command replace content style)))).

(** The row loop of one output file. *)
Definition process_rows (sheet : worksheet)
    (contentStartRow commandColumn styleColumn replaceColumn contentColumn : Z) : mut document :=
  for_in (process_row sheet commandColumn styleColumn replaceColumn contentColumn)
         (range contentStartRow (max_row sheet + 1)).

(** The body of the loop over the pairs of a timestamped file name and a
    content column. *)
Definition generate_one (e : env) (sheet : worksheet)
    (contentStartRow commandColumn styleColumn replaceColumn : Z)
    (templateFilename : string) (pair : string * Z) : mut world :=
  let '(outputGeneratedFilenameWithTimestamp, contentColumn) := pair in
  say (print_line EmptyString
         [(nl ++ "Generate timestamped output file: '")%string; outputGeneratedFilenameWithTimestamp;
          "' based on template: '"; templateFilename; "'"]) ;;
  eval (Document e templateFilename) (fun doc0 =>
  eval (getUsername e) (fun user =>
  say (print_line " " ["author:"; user]) ;;
  fun w =>
    match process_rows sheet contentStartRow commandColumn styleColumn replaceColumn
                       contentColumn (set_author user doc0) with
    | (_, o, Some ex) => (w, o, Some ex)
    | (doc, o, None) => (save outputGeneratedFilenameWithTimestamp doc w, o, None)
    end)).

(** [generateDocxFromXlsx(sheet, contentStartRow, commandColumn, styleColumn,
    replaceColumn, contentColumns, templateFilename, outputFilenames)]. *)
Definition generateDocxFromXlsx (e : env) (sheet : worksheet)
    (contentStartRow commandColumn styleColumn replaceColumn : Z)
    (contentColumns : list Z) (templateFilename : string)
    (outputFilenames : list string) : mut world :=
  fun w =>
    match appendTimestampToFilenames e outputFilenames ([], w) with
    | ((_, w1), o1, Some ex) => (w1, o1, Some ex)
    | ((outputGeneratedFilenamesWithTimestamp, w1), o1, None) =>
        let '(w2, o2, ex) :=
          for_in (generate_one e sheet contentStartRow commandColumn styleColumn
                               replaceColumn templateFilename)
                 (combine outputGeneratedFilenamesWithTimestamp contentColumns) w1 in
        (w2, o1 ++ o2, ex)
    end.

(** * Definitions for the statements *)

(** ** The paragraph locations of a document, in the order of the
    specification *)

(** The paragraphs of the cells of a table, row by row, cell by cell. *)
Definition table_paragraphs (t : table) : list paragraph :=
  flat_map (fun r : row => flat_map (fun c : cell => paragraphs c) r) t.

(** The paragraphs of a container and of the cells of its tables. *)
Definition tables_paragraphs (bs : list block) : list paragraph :=
  flat_map table_paragraphs (tables bs).

(** The locations of one section: header, header tables, footer, footer
    tables.  A location is tagged with its zone, written as the script's
    context string. *)
Definition section_locations (s : section) : list (string * paragraph) :=
  map (pair "section.header") (paragraphs (header s)) ++
  map (pair "section.header.tables") (tables_paragraphs (header s)) ++
  map (pair "section.footer") (paragraphs (footer s)) ++
  map (pair "section.footer.tables") (tables_paragraphs (footer s)).

(** The traversal order as the specification words it: (1) body paragraphs
    in document order; (2) for each body table, row by row and cell by cell,
    the cell's paragraphs; (3) for each section in order its header
    paragraphs, header tables, footer paragraphs and footer tables.  The
    script's own loops are [replaceParagraphInDoc]; the two are compared
    below. *)
Definition traversal (d : document) : list (string * paragraph) :=
  map (pair "doc.paragraphs") (paragraphs (body d)) ++
  map (pair "doc.tables") (tables_paragraphs (body d)) ++
  flat_map section_locations (sections d).

(** A visit of a tagged location by a family of paragraph mutators. *)
Definition at_location (F : string -> mut paragraph) : mut (string * paragraph) :=
  fun zp => let '(p', o, e) := F (fst zp) (snd zp) in ((fst zp, p'), o, e).

(** ** Mutators seen through the items they visit *)

(** The outcome of a mutator, seen through the items of the object. *)
Definition on_items {S B : Type} (items : S -> list B) (r : outcome S) : outcome (list B) :=
  let '(s, o, e) := r in (items s, o, e).

(** [m] visits the items of its object one after the other with [g]: it
    prints what these visits print, raises what they raise, and leaves the
    items they leave. *)
Definition visits {S B : Type} (items : S -> list B) (g : mut B) (m : mut S) : Prop :=
  forall s, on_items items (m s) = for_each g (items s).

(** [m] leaves the items as they are, also when it raises. *)
Definition keeps {S B : Type} (items : S -> list B) (m : mut S) : Prop :=
  forall s, items (fst (fst (m s))) = items s.

(** The two passes over a container: its paragraphs, then the paragraphs of
    its tables. *)
Definition story_locations (zp zt : string) (bs : list block) : list (string * paragraph) :=
  map (pair zp) (paragraphs bs) ++ map (pair zt) (tables_paragraphs bs).

(** The passes over one section, as [replaceParagraphInDoc] writes them. *)
Definition section_passes (F : string -> mut paragraph) : mut section :=
  focus header set_header (each_paragraph (F "section.header")) ;;
  focus header set_header (each_table_paragraph (F "section.header.tables")) ;;
  focus footer set_footer (each_paragraph (F "section.footer")) ;;
  focus footer set_footer (each_table_paragraph (F "section.footer.tables")).

(** The passes over a document, for any family of paragraph mutators. *)
Definition document_passes (F : string -> mut paragraph) : mut document :=
  focus body set_body (each_paragraph (F "doc.paragraphs")) ;;
  focus body set_body (each_table_paragraph (F "doc.tables")) ;;
  focus sections set_sections (for_each (section_passes F)).

(** ** The outcome of a visit *)

(** [s] occurs in [t]: some characters, then [s], then the rest. *)
Definition occurs_in (s t : string) : Prop :=
  exists pre post : string, t = (pre ++ s ++ post)%string.

(** The test of [if style and style != "None"]. *)
Definition applies (style : value) : bool := truthy style && differs style "None".

(** What the style argument asks for: nothing ([None]), or the style id that
    the lookup of the name gives, or the exception of that lookup. *)
Definition resolve (ss : list style) (style : value) : exn + option (option string) :=
  if applies style then
    match get_style_id ss (str style) with
    | inl e => inl e
    | inr sid => inr (Some sid)
    end
  else inr None.

(** The two lines the script prints for a replacement. *)
Definition replace_line (contextString : string) (content : value) (p : paragraph) : string :=
  print_line EmptyString
    ["In "; contextString; ": replace_paragraph: '"; text p;
     ("' " ++ tab ++ "by '")%string; str content; "'"].

Definition style_line (style : value) : string :=
  print_line EmptyString ["Set style to '"; str style; "'"].

(** A matched paragraph after the replacement. *)
Definition rewritten (content : value) (act : option (option string)) (p : paragraph)
  : paragraph :=
  mk_paragraph (run_text content)
               (match act with Some sid => sid | None => style_id p end).

(** The paragraph and the printed lines of a visit that does not raise. *)
Definition visit_result (s : string) (content : value) (act : option (option string))
    (p : paragraph) : paragraph :=
  if contains s (text p) then rewritten content act p else p.

Definition visit_lines (contextString s : string) (content style : value)
    (p : paragraph) : list string :=
  if contains s (text p) then
    replace_line contextString content p ::
    (if applies style then [style_line style] else [])
  else [].

(** ** The driver: printed lines, timestamped names, generated documents *)

(** The lines printed for one output file before its rows are read. *)
Definition announce (name templateFilename user : string) : list string :=
  [print_line EmptyString
     [(nl ++ "Generate timestamped output file: '")%string; name;
      "' based on template: '"; templateFilename; "'"];
   print_line " " ["author:"; user]].

(** No style of the template has the name, neither as its name nor as its
    id. *)
Definition no_style_named (name : string) (ss : list style) : Prop :=
  forall st, In st ss -> style_name st <> name /\ style_style_id st <> name.

(** The line printed for a command that is neither of the two. *)
Definition unexpected_line (command content : value) : string :=
  print_line " " ["Unexpected object:"; str command; "with content:"; str content].

(** The timestamped names of a list of file names, the first one stamped
    with the k-th reading of the clock. *)
Fixpoint stamp_all (e : env) (k : nat) (names : list string) : list string :=
  match names with
  | [] => []
  | n :: ns =>
      appendTimestampToFilename (utcoffset e) (clock e k) n :: stamp_all e (S k) ns
  end.

(** One output file that is generated without an exception is saved under
    its timestamped name, built from the template by the row loop of its
    content column. *)
Definition generated_from (e : env) (sheet : worksheet) (start cc sc rc : Z)
    (tpl : string) (col : Z) (doc : document) : Prop :=
  exists doc0 user o,
    Document e tpl = inr doc0 /\ getUsername e = inr user /\
    process_rows sheet start cc sc rc col (set_author user doc0) = (doc, o, None).

(** ** Sample data *)

(** A template with a body table, one section with a header and a footer,
    and three paragraph styles ([Normal] is the default one). *)
Definition letter_styles : list style :=
  [mk_style "Normal" "Normal" PARAGRAPH true;
   mk_style "Heading 1" "Heading1" PARAGRAPH false;
   mk_style "Signature" "Signature" PARAGRAPH false;
   mk_style "Strong" "Strong" CHARACTER false].

Definition plain (s : string) : block := Para (mk_paragraph s None).

Definition letter : document :=
  mk_document
    [plain "Dear {{NAME}},";
     Tbl [[[plain "To: {{NAME}}"]; [plain "Ref"]]];
     plain "Regards"]
    [mk_section [plain "{{NAME}} - page"]
                [plain "Confidential"; Tbl [[[plain "{{NAME}}"]]]]]
    letter_styles EmptyString.

(** An environment and worksheets for the examples: the command is in
    column 1, the style in column 2, the match string in column 3 and the
    contents from column 4 on; the rows start at row 2. *)
Definition office : env :=
  mk_env "posix" [("USER", "bob")] 0
         (fun k => (1597849941000000000 + Z.of_nat k * 1000000000)%Z)
         [("template.docx", letter)].

Definition orders : worksheet :=
  mk_worksheet 4
    [(2, 1, Some "replace_paragraph"); (2, 2, Some "None"); (2, 3, Some "{{NAME}}");
     (2, 4, Some "Dear Alice,"); (2, 5, Some "Dear Bob,");
     (3, 1, Some "remark"); (3, 4, Some "ignored");
     (4, 1, Some "add_paragraph"); (4, 2, Some "Signature");
     (4, 4, Some "Signed, Alice")]%Z.

Definition misstyled : worksheet :=
  mk_worksheet 3
    [(2, 1, Some "remark");
     (3, 1, Some "replace_paragraph"); (3, 2, Some "Fancy"); (3, 3, Some "{{NAME}}");
     (3, 4, Some "Dear Alice,")]%Z.

Definition remarks : worksheet :=
  mk_worksheet 4 [(2, 1, Some "remark"); (2, 4, Some "x"); (4, 1, Some "note")]%Z.

(** A run with three file names and two content columns. *)
Definition sample_run : outcome world :=
  generateDocxFromXlsx office orders 2 1 2 3 [4; 5]%Z "template.docx"
    ["out/a.docx"; "out/b.docx"; "spare/c.docx"] (mk_world 0 [] []).

(** The file names of the script's default configuration. *)
Definition default_filenames : list string :=
  ["generatedDataFile1.docx"; "generatedDataFile2.docx"; "generatedDataFile3.docx"].

(** ** Further definitions *)

(** [m] leaves the quantity [q] of its object as it is, also when it
    raises. *)
Definition preserves {S C : Type} (q : S -> C) (m : mut S) : Prop :=
  forall s, q (fst (fst (m s))) = q s.

(** The tables nested in the cells of the tables of a container: per table,
    per row, per cell. *)
Definition nested_tables (bs : list block) : list (list (list (list table))) :=
  map (map (map tables)) (tables bs).

(** The nested tables of a whole document: those of the body, and of the
    header and the footer of every section. *)
Definition document_nested_tables (d : document)
  : list (list (list (list table))) *
    list (list (list (list (list table))) * list (list (list (list table)))) :=
  (nested_tables (body d),
   map (fun s => (nested_tables (header s), nested_tables (footer s))) (sections d)).

(** ** tomlkit and openpyxl: the configuration and the workbook *)

Module Toml.

(** The three tables of the configuration.  A key that is missing is
    [None]; a key that is present has a value of the type the default
    configuration gives it. *)
Record source_data := mk_source_data {
  sd_filename : option string;
  sd_contentSheetname : option string;
  sd_contentStartRow : option Z;
  sd_commandColumn : option Z;
  sd_styleColumn : option Z;
  sd_replaceColumn : option Z;
  sd_contentColumns : option (list Z)
}.

Record template_data := mk_template_data {
  td_filename : option string
}.

Record generated_data := mk_generated_data {
  gd_filenames : option (list string)
}.

Record config := mk_config {
  sourceData : option source_data;
  template : option template_data;
  generatedData : option generated_data
}.

(** [table[key]]: tomlkit raises [NonExistentKey], a [KeyError], for a
    missing key. *)
Definition item {A : Type} (key : string) (v : option A) : exn + A :=
  match v with
  | Some a => inr a
  | None => inl (KeyError key)
  end.

(** [myConfig[table][key]]. *)
Definition item2 {T A : Type} (table : string) (t : option T)
    (key : string) (field : T -> option A) : exn + A :=
  match item table t with
  | inl e => inl e
  | inr x => item key (field x)
  end.

End Toml.
Import Toml.

(** A workbook: its sheets with their names, in order. *)
Definition workbook := list (string * worksheet).

(** [xlsxWorkbook.sheetnames]. *)
Definition sheetnames (wb : workbook) : list string := map fst wb.

(** [xlsxWorkbook[name]]. *)
Definition sheet_by_name (wb : workbook) (name : string) : exn + worksheet :=
  match assoc name wb with
  | Some ws => inr ws
  | None => inl (KeyError ("Worksheet " ++ name ++ " does not exist."))
  end.

(** [sheet.max_column]: the largest column index of a stored cell, 1 for a
    sheet without cells. *)
Definition max_column (ws : worksheet) : Z :=
  fold_right Z.max 1%Z (map (fun c => snd (fst c)) (cells ws)).

(** [str(n)] for an integer. *)
Definition str_int (n : Z) : string :=
  if (n <? 0)%Z then ("-" ++ Clock.dec (- n))%string else Clock.dec n.

(** [__version__], and the configuration that [tomlkit.parse] reads from the
    text of [defaultConfiguration]. *)
Definition version : string := "0.1.0".

Definition default_config : config :=
  mk_config
    (Some (mk_source_data (Some "sourceDataExample.xlsx") (Some "Content")
             (Some 2%Z) (Some 1%Z) (Some 2%Z) (Some 3%Z) (Some [4; 5; 6]%Z)))
    (Some (mk_template_data (Some "src/xlsx2docx-byColumns_TemplateExample.docx")))
    (Some (mk_generated_data (Some default_filenames))).

(** The configuration files on disk (by name, the last one written first)
    and the rest of the world.  A configuration file holds a well-formed
    configuration, and writing one cannot fail. *)
Record site := mk_site {
  config_files : list (string * config);
  site_world : world
}.

(** How a run of [main] ends: it returns, [sys.exit()] leaves it, or an
    exception does. *)
Inductive ending :=
| Returned
| Exited
| Raised (e : exn).

(** ** The script: configuration, worksheets, command line *)

(** The one line that the two [print] calls of a pass of
    [printAvailableWorksheetsIn] write (the first ends with [end=""]). *)
Definition worksheet_line (sheetname : string) (sheet : worksheet)
    (contentSheetname : string) : string :=
  (print_line " " [sheetname; (tab ++ "max_row:")%string; str_int (max_row sheet);
                   (tab ++ "max_column:")%string; str_int (max_column sheet)] ++
   (if String.eqb sheetname contentSheetname
    then " Will be used to generate output files." else EmptyString))%string.

(** [printAvailableWorksheetsIn(sourceDataFilename, xlsxWorkbook,
    contentSheetname)]. *)
Definition printAvailableWorksheetsIn {A : Type} (sourceDataFilename : string)
    (xlsxWorkbook : workbook) (contentSheetname : string) : mut A :=
  say (print_line EmptyString
         ["Available worksheets in '"; sourceDataFilename; "' are: "]) ;;
  for_in (fun sheetname =>
            eval (sheet_by_name xlsxWorkbook sheetname) (fun sheet =>
              say (worksheet_line sheetname sheet contentSheetname)))
         (sheetnames xlsxWorkbook).

(** The four lines of [generateDefaultConfigurationTomlFile]. *)
Definition default_written_lines (configurationFilename : string) : list string :=
  ["!!!!!!!!!!!!!!!!!!!!!!!!!!!!!!!!!!!!!!!!!!!!!!!!!!!!!!!!!!!!!!!!!!!!!!!!!!!!!!!!!!!!!!!!!!!!!!!!";
   print_line EmptyString
     ["!!  Default configuration was written to file '"; configurationFilename; "'  !!"];
   "!!  It is assumed, that you need to adopt the defaults to your needs.                         !!";
   "!!!!!!!!!!!!!!!!!!!!!!!!!!!!!!!!!!!!!!!!!!!!!!!!!!!!!!!!!!!!!!!!!!!!!!!!!!!!!!!!!!!!!!!!!!!!!!!!"].

(** [generateDefaultConfigurationTomlFile(configurationFilename)]. *)
Definition generateDefaultConfigurationTomlFile (configurationFilename : string)
  : mut site :=
  for_in say (default_written_lines configurationFilename) ;;
  fun s => (mk_site ((configurationFilename, default_config) :: config_files s)
                    (site_world s), [], None).

(** [loadConfiguration(configurationFilename)]: the configuration that is
    returned is given to the rest of the run [k]. *)
Definition loadConfiguration (configurationFilename : string)
    (k : config -> mut site) : mut site :=
  (fun s =>
     match assoc configurationFilename (config_files s) with
     | Some _ => skip s
     | None => generateDefaultConfigurationTomlFile configurationFilename s
     end) ;;
  fun s =>
    eval (match assoc configurationFilename (config_files s) with
          | Some c => inr c
          | None => inl (FileNotFoundError configurationFilename)
          end) k s.

Section Script.

(** [openpyxl.load_workbook(filename, data_only=True)], and [str] of the two
    arrays of the configuration, as the libraries give them. *)
Variable load_workbook : string -> exn + workbook.
Variable show_columns : list Z -> string.
Variable show_filenames : list string -> string.

(** The text of the [print("Configuration:\n", ..., sep="")] call. *)
Definition configuration_text (sourceDataFilename contentSheetname : string)
    (contentStartRow commandColumn styleColumn replaceColumn : Z)
    (contentColumns : list Z) (templateFilename : string)
    (outputFilenames : list string) : string :=
  print_line EmptyString
    [("Configuration:" ++ nl)%string;
     "Source data file          '"; sourceDataFilename; ("'" ++ nl)%string;
     "From sheet                '"; contentSheetname; ("'" ++ nl)%string;
     "starting at row           "; str_int contentStartRow; nl;
     "using command from column "; str_int commandColumn; nl;
     "using style from column   "; str_int styleColumn; nl;
     "using replace from column "; str_int replaceColumn; nl;
     "using content columns     "; show_columns contentColumns; nl;
     "using template file       '"; templateFilename; ("'" ++ nl)%string;
     "to generate files         "; show_filenames outputFilenames].

(** The loop [for sheetname in xlsxWorkbook.sheetnames] of [xlx2docx]: the
    first sheet of the configured name is used, then [break]. *)
Fixpoint generate_from_sheet (xlsxWorkbook : workbook)
    (contentSheetname : string) (generate : worksheet -> mut world)
    (names : list string) : mut world :=
  match names with
  | [] => skip
  | sheetname :: rest =>
      if String.eqb sheetname contentSheetname then
        eval (sheet_by_name xlsxWorkbook contentSheetname) generate
      else generate_from_sheet xlsxWorkbook contentSheetname generate rest
  end.

(** [xlx2docx(myConfig)]. *)
Definition xlx2docx (e : env) (myConfig : config) : mut world :=
  eval (item2 "sourceData" (sourceData myConfig) "filename" sd_filename)
    (fun sourceDataFilename =>
  eval (item2 "sourceData" (sourceData myConfig) "contentSheetname" sd_contentSheetname)
    (fun contentSheetname =>
  eval (item2 "sourceData" (sourceData myConfig) "contentStartRow" sd_contentStartRow)
    (fun contentStartRow =>
  eval (item2 "sourceData" (sourceData myConfig) "commandColumn" sd_commandColumn)
    (fun commandColumn =>
  eval (item2 "sourceData" (sourceData myConfig) "styleColumn" sd_styleColumn)
    (fun styleColumn =>
  eval (item2 "sourceData" (sourceData myConfig) "replaceColumn" sd_replaceColumn)
    (fun replaceColumn =>
  eval (item2 "sourceData" (sourceData myConfig) "contentColumns" sd_contentColumns)
    (fun contentColumns =>
  eval (item2 "template" (template myConfig) "filename" td_filename)
    (fun templateFilename =>
  eval (item2 "generatedData" (generatedData myConfig) "filenames" gd_filenames)
    (fun outputFilenames =>
  say (configuration_text sourceDataFilename contentSheetname contentStartRow
         commandColumn styleColumn replaceColumn contentColumns templateFilename
         outputFilenames) ;;
  eval (load_workbook sourceDataFilename) (fun xlsxWorkbook =>
  printAvailableWorksheetsIn sourceDataFilename xlsxWorkbook contentSheetname ;;
  generate_from_sheet xlsxWorkbook contentSheetname
    (fun sheet =>
       generateDocxFromXlsx e sheet contentStartRow commandColumn styleColumn
         replaceColumn contentColumns templateFilename outputFilenames)
    (sheetnames xlsxWorkbook))))))))))).

(** The two lines of [printUsage()], for the script path [file]. *)
Definition usage_lines (file : string) : list string :=
  [print_line " " [file; version];
   (nl ++ "    --version : prints version" ++ nl ++
    "    --help    : prints this help message" ++ nl ++
    "    " ++ nl ++
    "    An alternative configurationFileName can be passed as argument. Example: '" ++ file ++
    " somewhereElse/myAlternativeConfigfile.toml'" ++ nl ++
    "    ")%string].

(** [main()], for the script path [__file__] and [sys.argv]. *)
Definition main (e : env) (file : string) (argv : list string)
  : site -> site * list string * ending :=
  fun s =>
    let run (printed : list string) (configurationFilename : string) :=
      let '(s', o, ex) :=
        loadConfiguration configurationFilename
          (fun myConfig =>
             focus site_world (fun w s0 => mk_site (config_files s0) w)
                   (xlx2docx e myConfig)) s in
      (s', printed ++ o, match ex with Some x => Raised x | None => Returned end) in
    match argv with
    | _ :: arg :: _ =>
        if String.eqb arg "--version" then
          (s, [(file ++ " V" ++ version)%string], Exited)
        else if String.eqb arg "--help" then
          (s, usage_lines file, Exited)
        else
          run [("Use of alternative configuration file '" ++ arg ++ "'")%string] arg
    | _ => run [] "xlsx2docx-byColumns_Configuration.toml"
    end.

End Script.

(** ** The settings of a complete configuration *)

(** The nine settings that [xlx2docx] reads. *)
Record settings := mk_settings {
  s_filename : string;
  s_contentSheetname : string;
  s_contentStartRow : Z;
  s_commandColumn : Z;
  s_styleColumn : Z;
  s_replaceColumn : Z;
  s_contentColumns : list Z;
  s_templateFilename : string;
  s_outputFilenames : list string
}.

(** The settings of a configuration that has all nine keys. *)
Definition settings_of (c : config) : option settings :=
  match sourceData c, template c, generatedData c with
  | Some sd, Some td, Some gd =>
      match sd_filename sd, sd_contentSheetname sd, sd_contentStartRow sd,
            sd_commandColumn sd, sd_styleColumn sd, sd_replaceColumn sd,
            sd_contentColumns sd, td_filename td, gd_filenames gd with
      | Some f, Some n, Some r, Some cc, Some sc, Some rc, Some cols, Some t, Some outs =>
          Some (mk_settings f n r cc sc rc cols t outs)
      | _, _, _, _, _, _, _, _, _ => None
      end
  | _, _, _ => None
  end.

(** The lines that list the worksheets of a workbook. *)
Definition available_lines (wb : workbook) (contentSheetname : string) : list string :=
  flat_map (fun sheetname =>
              match sheet_by_name wb sheetname with
              | inr sheet => [worksheet_line sheetname sheet contentSheetname]
              | inl _ => []
              end)
           (sheetnames wb).

(** The name of the configuration file that [main] uses without an
    argument. *)
Definition default_configuration_filename : string :=
  "xlsx2docx-byColumns_Configuration.toml".

(** ** Sample data for the configuration *)

(** The two arrays as Python prints lists of integers and of plain
    strings. *)
Definition show_integers (l : list Z) : string :=
  ("[" ++ String.concat ", " (map str_int l) ++ "]")%string.

Definition show_strings (l : list string) : string :=
  ("[" ++ String.concat ", " (map (fun s => "'" ++ s ++ "'") l) ++ "]")%string.

(** A directory with one workbook of two sheets. *)
Definition shelf (filename : string) : exn + workbook :=
  if String.eqb filename "data.xlsx"
  then inr [("Notes", remarks); ("Content", orders)]
  else inl (FileNotFoundError filename).

Definition office_settings (sheetname : string) : settings :=
  mk_settings "data.xlsx" sheetname 2 1 2 3 [4; 5]%Z "template.docx"
              ["out/a.docx"; "out/b.docx"].

Definition office_config (sheetname : string) : config :=
  mk_config
    (Some (mk_source_data (Some "data.xlsx") (Some sheetname)
             (Some 2%Z) (Some 1%Z) (Some 2%Z) (Some 3%Z) (Some [4; 5]%Z)))
    (Some (mk_template_data (Some "template.docx")))
    (Some (mk_generated_data (Some ["out/a.docx"; "out/b.docx"]))).

(** The template file name of a configuration, for a continuation that
    prints it. *)
Definition template_name (c : config) : string :=
  match template c with
  | Some td => str (td_filename td)
  | None => "None"
  end.

(** A configuration without the table [template]. *)
Definition incomplete_config : config :=
  mk_config (sourceData (office_config "Content")) None
            (generatedData (office_config "Content")).

(** * Lemmas and theorems *)

(** ** Lemmas on mutators *)

Section MutatorLemmas.

Context {S B : Type}.

Lemma for_each_app (g : mut B) (l1 l2 : list B) :
  for_each g (l1 ++ l2) =
  match for_each g l1 with
  | (l1', o1, Some e) => (l1' ++ l2, o1, Some e)
  | (l1', o1, None) =>
      let '(l2', o2, e) := for_each g l2 in (l1' ++ l2', o1 ++ o2, e)
  end.
Proof.
  induction l1 as [|x l1 IH]; simpl.
  - destruct (for_each g l2) as [[l2' o2] e]. reflexivity.
  - destruct (g x) as [[x' o1] [e|]]; [reflexivity|].
    rewrite IH. destruct (for_each g l1) as [[l1' o1'] [e|]]; [reflexivity|].
    destruct (for_each g l2) as [[l2' o2] e]. now rewrite app_assoc.
Qed.

Lemma visits_andthen (i1 i2 : S -> list B) (g : mut B) (m1 m2 : mut S) :
  visits i1 g m1 -> keeps i2 m1 -> visits i2 g m2 -> keeps i1 m2 ->
  visits (fun s => i1 s ++ i2 s) g (m1 ;; m2).
Proof.
  intros V1 K1 V2 K2 s. unfold andthen. rewrite for_each_app.
  specialize (V1 s); specialize (K1 s).
  destruct (m1 s) as [[s1 o1] e1]; simpl in V1, K1. rewrite <- V1.
  destruct e1 as [e|]; simpl; [now rewrite K1|].
  specialize (V2 s1); specialize (K2 s1). rewrite <- K1, <- V2.
  destruct (m2 s1) as [[s2 o2] e2]; simpl in *. now rewrite K2.
Qed.

Lemma visits_for_each (items : S -> list B) (g : mut B) (m : mut S) :
  visits items g m -> visits (flat_map items) g (for_each m).
Proof.
  intros V l. induction l as [|x l IH]; simpl; [reflexivity|].
  rewrite for_each_app. specialize (V x).
  destruct (m x) as [[x' o1] e1]; simpl in V. rewrite <- V.
  destruct e1 as [e|]; simpl; [reflexivity|].
  rewrite <- IH. destruct (for_each m l) as [[l' o2] e2]. reflexivity.
Qed.

End MutatorLemmas.

Section FocusLemmas.

Context {S T B : Type} (get : S -> T) (set : T -> S -> S).
Hypothesis get_set : forall t s, get (set t s) = t.

Lemma visits_focus (items : T -> list B) (g : mut B) (m : mut T) :
  visits items g m -> visits (fun s => items (get s)) g (focus get set m).
Proof.
  intros V s. unfold focus. specialize (V (get s)).
  destruct (m (get s)) as [[t o] e]; simpl in *. now rewrite get_set.
Qed.

Lemma keeps_focus_other (items : S -> list B) (m : mut T) :
  (forall t s, items (set t s) = items s) -> keeps items (focus get set m).
Proof.
  intros H s. unfold focus. destruct (m (get s)) as [[t o] e]; simpl. apply H.
Qed.

End FocusLemmas.

Lemma visits_ext {S B : Type} (i i' : S -> list B) (g : mut B) (m m' : mut S) :
  (forall s, i s = i' s) -> (forall s, m s = m' s) -> visits i g m -> visits i' g m'.
Proof. intros Hi Hm V s. rewrite <- Hm, <- !Hi. specialize (V s). destruct (m s) as [[s1 o] e]. simpl in *. now rewrite <- Hi. Qed.

Lemma keeps_map {S B C : Type} (h : list B -> list C) (i : S -> list B) (m : mut S) :
  keeps i m -> keeps (fun s => h (i s)) m.
Proof. intros K s. now rewrite K. Qed.

Lemma andthen_assoc {A : Type} (f g h : mut A) (a : A) :
  ((f ;; g) ;; h) a = (f ;; g ;; h) a.
Proof.
  unfold andthen. destruct (f a) as [[a1 o1] [e|]]; [reflexivity|].
  destruct (g a1) as [[a2 o2] [e|]]; [reflexivity|].
  destruct (h a2) as [[a3 o3] e]. now rewrite app_assoc.
Qed.

Lemma focus_andthen {S T : Type} (get : S -> T) (set : T -> S -> S) (f g : mut T) :
  (forall t s, get (set t s) = t) ->
  (forall t t' s, set t (set t' s) = set t s) ->
  forall s, (focus get set f ;; focus get set g) s = focus get set (f ;; g) s.
Proof.
  intros GS SS s. unfold andthen, focus.
  destruct (f (get s)) as [[t1 o1] [e|]]; [reflexivity|].
  rewrite GS. destruct (g t1) as [[t2 o2] e]. now rewrite SS.
Qed.

(** *** Containers of paragraphs and tables *)

Lemma visits_each_paragraph (f : mut paragraph) :
  visits paragraphs f (each_paragraph f).
Proof.
  intros bs. unfold each_paragraph. induction bs as [|[p|t] bs IH]; simpl; [reflexivity| |].
  - destruct (f p) as [[p' o1] [e|]]; simpl; [reflexivity|].
    revert IH. destruct (for_each _ bs) as [[bs' o2] e2]; simpl.
    intros <-. reflexivity.
  - revert IH. destruct (for_each _ bs) as [[bs' o2] e2]; simpl. trivial.
Qed.

Lemma keeps_tables_each_paragraph (f : mut paragraph) :
  keeps tables (each_paragraph f).
Proof.
  intros bs. unfold each_paragraph. induction bs as [|[p|t] bs IH]; simpl; [reflexivity| |].
  - destruct (f p) as [[p' o1] [e|]]; simpl; [reflexivity|].
    revert IH. destruct (for_each _ bs) as [[bs' o2] e2]; simpl. trivial.
  - revert IH. destruct (for_each _ bs) as [[bs' o2] e2]; simpl. congruence.
Qed.

Lemma visits_each_table {B : Type} (items : table -> list B) (g : mut B) (m : mut table) :
  visits items g m -> visits (fun bs => flat_map items (tables bs)) g (each_table m).
Proof.
  intros V bs. unfold each_table. induction bs as [|[p|t] bs IH]; simpl; [reflexivity| |].
  - revert IH. destruct (for_each _ bs) as [[bs' o2] e2]; simpl. trivial.
  - rewrite for_each_app. specialize (V t).
    destruct (m t) as [[t' o1] e1]; simpl in V. rewrite <- V.
    destruct e1 as [e|]; simpl; [reflexivity|].
    revert IH. destruct (for_each _ bs) as [[bs' o2] e2]; simpl.
    intros <-. reflexivity.
Qed.

Lemma keeps_paragraphs_each_table (m : mut table) :
  keeps paragraphs (each_table m).
Proof.
  intros bs. unfold each_table. induction bs as [|[p|t] bs IH]; simpl; [reflexivity| |].
  - revert IH. destruct (for_each _ bs) as [[bs' o2] e2]; simpl. congruence.
  - destruct (m t) as [[t' o1] [e|]]; simpl; [reflexivity|].
    revert IH. destruct (for_each _ bs) as [[bs' o2] e2]; simpl. trivial.
Qed.

Lemma visits_each_table_paragraph (f : mut paragraph) :
  visits tables_paragraphs f (each_table_paragraph f).
Proof.
  unfold tables_paragraphs, each_table_paragraph.
  apply (visits_each_table table_paragraphs).
  apply (visits_for_each (flat_map paragraphs)).
  apply (visits_for_each paragraphs).
  apply visits_each_paragraph.
Qed.

(** Visiting tagged locations: a zone is visited with the mutator of its
    tag. *)
Lemma for_each_tagged (F : string -> mut paragraph) (z : string) (l : list paragraph) :
  for_each (at_location F) (map (pair z) l) = on_items (map (pair z)) (for_each (F z) l).
Proof.
  induction l as [|p l IH]; simpl; [reflexivity|].
  unfold at_location at 1; simpl.
  destruct (F z p) as [[p' o1] [ex|]]; [reflexivity|].
  rewrite IH. destruct (for_each (F z) l) as [[l' o2] e2]. reflexivity.
Qed.

Lemma visits_tagged {S : Type} (items : S -> list paragraph)
    (F : string -> mut paragraph) (z : string) (m : mut S) :
  visits items (F z) m -> visits (fun s => map (pair z) (items s)) (at_location F) m.
Proof.
  intros V s. rewrite for_each_tagged, <- V.
  destruct (m s) as [[s1 o] e]. reflexivity.
Qed.

Lemma andthen_ext {A : Type} (f f' g g' : mut A) :
  (forall a, f a = f' a) -> (forall a, g a = g' a) ->
  forall a, (f ;; g) a = (f' ;; g') a.
Proof.
  intros Hf Hg a. unfold andthen. rewrite Hf.
  destruct (f' a) as [[a1 o1] [e|]]; [reflexivity|]. now rewrite Hg.
Qed.

Lemma visits_story (F : string -> mut paragraph) (zp zt : string) :
  visits (story_locations zp zt) (at_location F)
         (each_paragraph (F zp) ;; each_table_paragraph (F zt)).
Proof.
  apply visits_andthen.
  - apply (visits_tagged paragraphs), visits_each_paragraph.
  - apply (keeps_map (fun l => map (pair zt) (flat_map table_paragraphs l)) tables).
    apply keeps_tables_each_paragraph.
  - apply (visits_tagged tables_paragraphs), visits_each_table_paragraph.
  - apply (keeps_map (map (pair zp)) paragraphs).
    apply keeps_paragraphs_each_table.
Qed.

Lemma visits_section (F : string -> mut paragraph) :
  visits section_locations (at_location F) (section_passes F).
Proof.
  apply (visits_ext
    (fun s => story_locations "section.header" "section.header.tables" (header s) ++
              story_locations "section.footer" "section.footer.tables" (footer s))
    _ _
    (focus header set_header
       (each_paragraph (F "section.header") ;;
        each_table_paragraph (F "section.header.tables")) ;;
     focus footer set_footer
       (each_paragraph (F "section.footer") ;;
        each_table_paragraph (F "section.footer.tables")))).
  - intros s. unfold section_locations, story_locations. now rewrite <- app_assoc.
  - intros s. unfold section_passes. rewrite <- andthen_assoc.
    symmetry. apply andthen_ext; intros a; apply focus_andthen; reflexivity.
  - apply visits_andthen.
    + apply (visits_focus header set_header); [reflexivity|]. apply visits_story.
    + apply keeps_focus_other. reflexivity.
    + apply (visits_focus footer set_footer); [reflexivity|]. apply visits_story.
    + apply keeps_focus_other. reflexivity.
Qed.

Lemma visits_document (F : string -> mut paragraph) :
  visits traversal (at_location F) (document_passes F).
Proof.
  apply (visits_ext
    (fun d => story_locations "doc.paragraphs" "doc.tables" (body d) ++
              flat_map section_locations (sections d))
    _ _
    (focus body set_body
       (each_paragraph (F "doc.paragraphs") ;; each_table_paragraph (F "doc.tables")) ;;
     focus sections set_sections (for_each (section_passes F)))).
  - intros d. unfold traversal, story_locations. now rewrite <- app_assoc.
  - intros d. unfold document_passes. rewrite <- andthen_assoc.
    symmetry. apply andthen_ext; intros a; [|reflexivity].
    apply focus_andthen; reflexivity.
  - apply visits_andthen.
    + apply (visits_focus body set_body); [reflexivity|]. apply visits_story.
    + apply keeps_focus_other. reflexivity.
    + apply (visits_focus sections set_sections); [reflexivity|].
      apply visits_for_each, visits_section.
    + apply keeps_focus_other. reflexivity.
Qed.

Lemma replaceParagraphInDoc_passes (replace content style : value) (d : document) :
  replaceParagraphInDoc replace content style d =
  document_passes (replaceInParagraph (styles d) replace content style) d.
Proof. reflexivity. Qed.

(** The replace operation is one loop over the locations of the document in
    traversal order. *)
Lemma replaceParagraphInDoc_visits (replace content style : value) (d : document) :
  on_items traversal (replaceParagraphInDoc replace content style d) =
  for_each (at_location (replaceInParagraph (styles d) replace content style)) (traversal d).
Proof. rewrite replaceParagraphInDoc_passes. apply visits_document. Qed.

(** It changes neither the styles nor the author of the document. *)
Lemma document_passes_frame (F : string -> mut paragraph) (d : document) :
  styles (fst (fst (document_passes F d))) = styles d /\
  author (fst (fst (document_passes F d))) = author d.
Proof.
  unfold document_passes, andthen, focus.
  destruct (each_paragraph _ (body d)) as [[b1 o1] [e|]]; simpl; [auto|].
  destruct (each_table_paragraph _ b1) as [[b2 o2] [e|]]; simpl; [auto|].
  destruct (for_each _ (sections d)) as [[s3 o3] e]; simpl. auto.
Qed.

(** ** Lemmas on strings *)

Lemma prefix_spec (a b : string) :
  prefix a b = true <-> exists r : string, b = (a ++ r)%string.
Proof.
  revert b. induction a as [|x a IH]; intros b; simpl.
  - split; [intros _; now exists b | intros _; destruct b; reflexivity].
  - destruct b as [|y b]; [split; [discriminate | intros [r H]; discriminate]|].
    simpl. destruct (ascii_dec x y) as [->|N].
    + rewrite IH. split; intros [r H]; exists r; [now rewrite H | now inversion H].
    + split; [discriminate | intros [r H]; inversion H; congruence].
Qed.

Lemma contains_spec (s t : string) : contains s t = true <-> occurs_in s t.
Proof.
  unfold occurs_in. induction t as [|y t IH].
  - cbn [contains]. rewrite orb_false_r, prefix_spec. split.
    + intros [r H]. now exists EmptyString, r.
    + intros [[|c pre] [post H]]; [now exists post | discriminate].
  - cbn [contains]. rewrite orb_true_iff, prefix_spec, IH. split.
    + intros [[r H] | [pre [post H]]].
      * now exists EmptyString, r.
      * exists (String y pre), post. simpl. now rewrite H.
    + intros [[|c pre] [post H]].
      * left. now exists post.
      * right. exists pre, post. simpl in H. now inversion H.
Qed.

Lemma contains_empty (t : string) : contains EmptyString t = true.
Proof. destruct t; reflexivity. Qed.

Lemma take_drop (k : nat) (s : string) : (take k s ++ drop k s)%string = s.
Proof.
  revert s. induction k as [|k IH]; intros [|a s]; simpl; try reflexivity.
  now rewrite IH.
Qed.

Lemma string_app_nil_r (s : string) : (s ++ EmptyString)%string = s.
Proof. induction s; simpl; congruence. Qed.

Lemma splitext_app (p : string) :
  (fst (Path.splitext p) ++ snd (Path.splitext p))%string = p.
Proof.
  unfold Path.splitext.
  destruct (rfind Path.sep p <? rfind Path.extsep p)%Z; simpl.
  - destruct (all_chars _ _); simpl.
    + apply string_app_nil_r.
    + apply take_drop.
  - apply string_app_nil_r.
Qed.

Lemma string_app_inv_head (a b c : string) :
  (a ++ b)%string = (a ++ c)%string -> b = c.
Proof. induction a; simpl; intros H; [assumption | inversion H; auto]. Qed.

Lemma string_app_inv_tail (a b c : string) :
  String.length a = String.length b ->
  (a ++ c)%string = (b ++ c)%string -> a = b.
Proof.
  revert b. induction a as [|x a IH]; intros [|y b]; simpl; try discriminate; auto.
  intros L H. inversion H. inversion L. f_equal. auto.
Qed.

(** ** Lemmas on [replaceInParagraph] *)

Lemma applies_spec (style : value) :
  applies style = true <->
  exists name, style = Some name /\ name <> EmptyString /\ name <> "None".
Proof.
  unfold applies, truthy, differs. split.
  - destruct style as [[|a n]|]; cbn [andb]; try discriminate.
    intros H. apply negb_true_iff, String.eqb_neq in H.
    exists (String a n). repeat split; [discriminate | exact H].
  - intros [name [-> [N1 N2]]]. destruct name as [|a n]; [contradiction|]. cbn [andb].
    apply negb_true_iff, String.eqb_neq. assumption.
Qed.

Lemma replaceInParagraph_no_match (ss : list style) (s : string) (content style : value)
    (ctx : string) (p : paragraph) :
  contains s (text p) = false ->
  replaceInParagraph ss (Some s) content style ctx p = (p, [], None).
Proof. intros H. unfold replaceInParagraph, eval, py_in. now rewrite H. Qed.

Lemma replaceInParagraph_match (ss : list style) (s : string) (content style : value)
    (ctx : string) (p : paragraph) :
  contains s (text p) = true ->
  replaceInParagraph ss (Some s) content style ctx p =
  match resolve ss style with
  | inr act => (rewritten content act p, visit_lines ctx s content style p, None)
  | inl ex =>
      (mk_paragraph (run_text content) (style_id p),
       [replace_line ctx content p; style_line style], Some ex)
  end.
Proof.
  intros H. unfold replaceInParagraph, eval, py_in, visit_lines, resolve. rewrite H.
  fold (applies style). unfold andthen, say, set_text, set_style, skip, rewritten.
  destruct (applies style); simpl; [|reflexivity].
  destruct (get_style_id ss (str style)) as [ex|sid]; reflexivity.
Qed.

Lemma replaceInParagraph_resolved (ss : list style) (s : string) (content style : value)
    (act : option (option string)) (ctx : string) (p : paragraph) :
  resolve ss style = inr act ->
  replaceInParagraph ss (Some s) content style ctx p =
  (visit_result s content act p, visit_lines ctx s content style p, None).
Proof.
  intros R. unfold visit_result. destruct (contains s (text p)) eqn:H.
  - rewrite replaceInParagraph_match, R by assumption. reflexivity.
  - rewrite replaceInParagraph_no_match by assumption.
    unfold visit_lines. now rewrite H.
Qed.

Lemma for_each_pure {A : Type} (g : mut A) (h : A -> A) (k : A -> list string) (l : list A) :
  (forall x, In x l -> g x = (h x, k x, None)) ->
  for_each g l = (map h l, flat_map k l, None).
Proof.
  induction l as [|x l IH]; intros H; simpl; [reflexivity|].
  rewrite (H x) by (now left). rewrite IH by (intros y Hy; apply H; now right).
  reflexivity.
Qed.

Lemma for_each_tags (F : string -> mut paragraph) (l : list (string * paragraph)) :
  map fst (fst (fst (for_each (at_location F) l))) = map fst l.
Proof.
  induction l as [|[z p] l IH]; simpl; [reflexivity|].
  unfold at_location at 1; simpl.
  destruct (F z p) as [[p' o1] [e|]]; simpl; [reflexivity|].
  destruct (for_each (at_location F) l) as [[l' o2] e2]; simpl in *. now rewrite IH.
Qed.

(** A replacement whose style argument resolves visits every location and
    returns. *)
Lemma replaceParagraphInDoc_resolved (s : string) (content style : value)
    (act : option (option string)) (d : document) :
  resolve (styles d) style = inr act ->
  on_items traversal (replaceParagraphInDoc (Some s) content style d) =
  (map (fun zp => (fst zp, visit_result s content act (snd zp))) (traversal d),
   flat_map (fun zp => visit_lines (fst zp) s content style (snd zp)) (traversal d),
   None).
Proof.
  intros R. rewrite replaceParagraphInDoc_visits. apply for_each_pure.
  intros [z p] _. unfold at_location; simpl.
  now rewrite (replaceInParagraph_resolved _ _ _ _ act).
Qed.

(** ** Replacing paragraphs: the claims *)






(** With an absent match string the containment test raises [TypeError] at
    the first location visited, before anything is printed or changed. *)
Lemma absent_match_raises (c style : value) (d : document) :
  traversal d <> [] ->
  on_items traversal (replaceParagraphInDoc None c style d) =
  (traversal d, [], Some TypeError).
Proof.
  intros H. rewrite replaceParagraphInDoc_visits.
  destruct (traversal d) as [|[z p] l]; [contradiction|]. reflexivity.
Qed.


(** ** Lemmas on the row loop and the driver *)

Lemma for_in_app {K A : Type} (f : K -> mut A) (ks1 ks2 : list K) (a : A) :
  for_in f (ks1 ++ ks2) a = (for_in f ks1 ;; for_in f ks2) a.
Proof.
  revert a. induction ks1 as [|k ks1 IH]; intros a; cbn [for_in app].
  - unfold andthen, skip. now destruct (for_in f ks2 a) as [[a2 o2] e2].
  - rewrite andthen_assoc. apply andthen_ext; [reflexivity | exact IH].
Qed.

(** A loop stops at the first pass that raises. *)
Lemma for_in_raises {K A : Type} (f : K -> mut A) (pre post : list K) (k : K)
    (a a1 a2 : A) (o1 o2 : list string) (ex : exn) :
  for_in f pre a = (a1, o1, None) ->
  f k a1 = (a2, o2, Some ex) ->
  for_in f (pre ++ k :: post) a = (a2, o1 ++ o2, Some ex).
Proof.
  intros H1 H2. rewrite for_in_app. unfold andthen. rewrite H1. simpl.
  unfold andthen. now rewrite H2.
Qed.

Lemma cell_value_stored (ws : worksheet) (row column : Z) :
  (1 <= row)%Z -> (1 <= column)%Z -> cell_value ws row column = inr (stored ws row column).
Proof.
  intros Hr Hc. unfold cell_value.
  destruct (Z.ltb_spec row 1); [lia|]. destruct (Z.ltb_spec column 1); [lia|]. reflexivity.
Qed.

(** A row whose indices are valid runs the command of its four cells. *)
Lemma process_row_stored (sheet : worksheet) (cc sc rc col row : Z) (d : document) :
  (1 <= row)%Z -> (1 <= cc)%Z -> (1 <= sc)%Z -> (1 <= rc)%Z -> (1 <= col)%Z ->
  process_row sheet cc sc rc col row d =
  apply_command (stored sheet row cc) (stored sheet row rc)
                (stored sheet row col) (stored sheet row sc) d.
Proof.
  intros. unfold process_row, eval. now rewrite !cell_value_stored by assumption.
Qed.

Lemma apply_command_replace (cmd : string) (replace content style : value) (d : document) :
  contains "replace_paragraph" cmd = true ->
  apply_command (Some cmd) replace content style d =
  replaceParagraphInDoc replace content style d.
Proof.
  intros H. unfold apply_command, str. rewrite H.
  destruct cmd; [discriminate | reflexivity].
Qed.

Lemma generate_one_rows (e : env) (sheet : worksheet) (start cc sc rc col : Z)
    (tpl name user : string) (doc0 : document) (w : world) :
  Document e tpl = inr doc0 -> getUsername e = inr user ->
  generate_one e sheet start cc sc rc tpl (name, col) w =
  match process_rows sheet start cc sc rc col (set_author user doc0) with
  | (_, o, Some ex) => (w, announce name tpl user ++ o, Some ex)
  | (doc, o, None) => (save name doc w, announce name tpl user ++ o, None)
  end.
Proof.
  intros HD HU. unfold generate_one, eval, andthen, say. rewrite HD, HU.
  destruct (process_rows _ _ _ _ _ _ _) as [[doc o] [ex|]]; reflexivity.
Qed.

Lemma lookup_style_missing (ss : list style) (name : string) :
  (forall st, In st ss -> style_name st <> name /\ style_style_id st <> name) ->
  lookup_style ss name = inl (KeyError ("no style with name '" ++ name ++ "'")).
Proof.
  intros H. unfold lookup_style.
  assert (forall f : style -> string, (forall st, In st ss -> f st <> name) ->
          find (fun s => String.eqb (f s) name) ss = None) as F.
  { intros f Hf. destruct (find _ ss) as [st|] eqn:E; [|reflexivity].
    apply find_some in E. destruct E as [Hin Heq].
    apply String.eqb_eq in Heq. now apply Hf in Hin. }
  rewrite (F style_name), (F style_style_id); [reflexivity| |];
    intros st Hin; now apply H.
Qed.

Lemma get_style_id_missing (ss : list style) (name : string) :
  (forall st, In st ss -> style_name st <> name /\ style_style_id st <> name) ->
  get_style_id ss name = inl (KeyError ("no style with name '" ++ name ++ "'")).
Proof. intros H. unfold get_style_id. now rewrite lookup_style_missing. Qed.

(** A raising visit stops the loop over the locations. *)
Lemma for_each_raises {A : Type} (g : mut A) (l : list A) (ex : exn) :
  (forall x, In x l -> snd (g x) = None \/ snd (g x) = Some ex) ->
  (exists x, In x l /\ snd (g x) = Some ex) ->
  snd (for_each g l) = Some ex.
Proof.
  induction l as [|x l IH]; intros Hall [y [Hin Hy]]; [contradiction|]. simpl.
  pose proof (Hall x (or_introl eq_refl)) as Hx.
  destruct (g x) as [[x' o1] e1] eqn:E. simpl in Hx.
  destruct Hx as [-> | ->]; [|reflexivity].
  assert (snd (for_each g l) = Some ex) as H.
  { apply IH; [intros z Hz; apply Hall; now right|].
    destruct Hin as [<-|Hin]; [rewrite E in Hy; discriminate | now exists y]. }
  destruct (for_each g l) as [[l' o2] e2]. exact H.
Qed.



(** ** Adding a paragraph: the claims *)

Lemma paragraphs_app (a b : list block) :
  paragraphs (a ++ b) = paragraphs a ++ paragraphs b.
Proof. apply flat_map_app. Qed.

Lemma tables_app (a b : list block) : tables (a ++ b) = tables a ++ tables b.
Proof. apply flat_map_app. Qed.



(** C6 fails on the script for the style ["None"]: [add_paragraph] is called
    with [style="None"], python-docx looks the name up, and a template
    without a style of that name raises [KeyError] after the paragraph was
    appended.  (An absent style gives the default style, a named style that
    style.) *)
Lemma add_paragraph_style_None_raises :
  apply_command (Some "add_paragraph") None (Some "Signed, Bob") (Some "None") letter =
  (set_body (body letter ++ [plain "Signed, Bob"]) letter, [],
   Some (KeyError "no style with name 'None'")) /\
  apply_command (Some "add_paragraph") None (Some "Signed, Bob") None letter =
  (set_body (body letter ++ [plain "Signed, Bob"]) letter, [], None) /\
  apply_command (Some "add_paragraph") None (Some "Signed, Bob") (Some "Signature") letter =
  (set_body (body letter ++ [Para (mk_paragraph "Signed, Bob" (Some "Signature"))]) letter,
   [], None).
Proof. repeat split. Qed.

(** ** The row loop: the claims *)

Lemma in_range (a b r : Z) : In r (range a b) <-> (a <= r < b)%Z.
Proof.
  unfold range. rewrite in_map_iff. split.
  - intros [i [<- Hi]]. apply in_seq in Hi. lia.
  - intros H. exists (Z.to_nat (r - a)). split; [lia|]. apply in_seq. lia.
Qed.

Lemma sorted_offsets (a : Z) (n s : nat) :
  StronglySorted Z.lt (map (fun i => (a + Z.of_nat i)%Z) (seq s n)).
Proof.
  revert s. induction n as [|n IH]; intros s; simpl; constructor; [apply IH|].
  apply Forall_forall. intros x Hx. apply in_map_iff in Hx.
  destruct Hx as [i [<- Hi]]. apply in_seq in Hi. lia.
Qed.

Lemma range_sorted (a b : Z) : StronglySorted Z.lt (range a b).
Proof. apply sorted_offsets. Qed.

(** A loop whose passes change nothing and do not raise. *)
Lemma for_in_idle {K A : Type} (f : K -> mut A) (lines : K -> list string)
    (ks : list K) (a : A) :
  (forall k, In k ks -> f k a = (a, lines k, None)) ->
  for_in f ks a = (a, flat_map lines ks, None).
Proof.
  induction ks as [|k ks IH]; intros H; simpl; [reflexivity|].
  unfold andthen. rewrite (H k) by (now left).
  rewrite IH by (intros k' Hk'; apply H; now right). reflexivity.
Qed.

Lemma apply_command_skipped (command replace content style : value) (d : document) :
  truthy command = false ->
  apply_command command replace content style d = (d, [], None).
Proof. intros H. unfold apply_command. now rewrite H. Qed.

Lemma apply_command_unknown (cmd : string) (replace content style : value) (d : document) :
  cmd <> EmptyString ->
  contains "replace_paragraph" cmd = false ->
  contains "add_paragraph" cmd = false ->
  apply_command (Some cmd) replace content style d =
  (d, [unexpected_line (Some cmd) content], None).
Proof.
  intros N Hr Ha. unfold apply_command, str. rewrite Hr, Ha.
  destruct cmd; [contradiction | reflexivity].
Qed.



(** ** File names and directories: lemmas *)

Lemma stamp_all_length (e : env) (k : nat) (names : list string) :
  List.length (stamp_all e k names) = List.length names.
Proof. revert k. induction names; intros k; simpl; auto. Qed.

Lemma rfind_from_absent (c : ascii) (s : string) (i acc : Z) :
  contains (String c EmptyString) s = false -> rfind_from c s i acc = acc.
Proof.
  revert i acc. induction s as [|a r IH]; intros i acc H; [reflexivity|].
  cbn [contains] in H. apply orb_false_iff in H. destruct H as [Hp Hc].
  cbn [rfind_from]. rewrite IH by assumption.
  simpl in Hp. destruct (ascii_dec c a) as [->|N].
  - destruct r; discriminate.
  - destruct (Ascii.eqb_spec a c); [congruence | reflexivity].
Qed.

(** A file name without a slash has the empty directory name. *)
Lemma dirname_bare (f : string) :
  contains "/" f = false -> Path.dirname f = EmptyString.
Proof.
  intros H. unfold Path.dirname, rfind, Path.sep.
  rewrite rfind_from_absent by assumption. reflexivity.
Qed.

Lemma makedirs_nonempty (dir : string) (w : world) :
  dir <> EmptyString ->
  exists w', makedirs dir w = (w', [], None) /\
             reads w' = reads w /\ saved w' = saved w.
Proof.
  intros N. unfold makedirs. destruct dir; [contradiction|].
  destruct (existsb _ _); eexists; repeat split.
Qed.

(** [appendTimestampToFilenames] prints nothing and saves nothing; it
    returns the timestamped names when every name has a directory part, and
    raises [FileNotFoundError] when one has none. *)
Lemma appendTimestampToFilenames_outcome (e : env) (names acc : list string) (w : world) :
  exists acc1 w1 ex,
    appendTimestampToFilenames e names (acc, w) = ((acc1, w1), [], ex) /\
    saved w1 = saved w /\
    (ex = None \/ ex = Some (FileNotFoundError EmptyString)) /\
    (ex = None ->
     acc1 = acc ++ stamp_all e (reads w) names /\
     reads w1 = reads w + List.length names) /\
    ((exists f, In f names /\ Path.dirname f = EmptyString) ->
     ex = Some (FileNotFoundError EmptyString)).
Proof.
  revert acc w. induction names as [|f names IH]; intros acc w.
  - exists acc, w, None. simpl. rewrite app_nil_r, Nat.add_0_r.
    repeat split; auto. intros [f [[] _]].
  - unfold appendTimestampToFilenames. cbn [for_in].
    fold (appendTimestampToFilenames e names).
    unfold andthen at 1. unfold andthen at 1. unfold focus, ensureDirectoryExists.
    cbn [fst snd].
    destruct (string_dec (Path.dirname f) EmptyString) as [E|N].
    + rewrite E. cbn [makedirs fst snd].
      eexists _, _, _. split; [reflexivity|].
      repeat split; auto; discriminate.
    + destruct (makedirs_nonempty (Path.dirname f) (tick w) N) as [w' [Hm [Hr Hs]]].
      rewrite Hm. cbn [fst snd].
      destruct (IH (acc ++ [appendTimestampToFilename (utcoffset e) (clock e (reads w)) f]) w')
        as (acc1 & w1 & ex & Hrun & Hsaved & Hex & Hok & Hbare).
      rewrite Hrun. exists acc1, w1, ex. cbn [app].
      split; [reflexivity|]. split; [now rewrite Hsaved, Hs|]. split; [exact Hex|]. split.
      * intros ->. destruct (Hok eq_refl) as [-> ->].
        rewrite Hr. cbn [tick reads stamp_all List.length].
        rewrite <- app_assoc. split; [reflexivity | lia].
      * intros [g [[<-|Hin] Hg]]; [contradiction|]. apply Hbare. now exists g.
Qed.

Lemma generate_one_returns (e : env) (sheet : worksheet) (start cc sc rc : Z)
    (tpl name : string) (col : Z) (w w' : world) (o : list string) :
  generate_one e sheet start cc sc rc tpl (name, col) w = (w', o, None) ->
  exists doc, generated_from e sheet start cc sc rc tpl col doc /\ w' = save name doc w.
Proof.
  unfold generate_one, eval, andthen, say.
  destruct (Document e tpl) as [ex|doc0] eqn:HD; [intros H; inversion H|].
  destruct (getUsername e) as [ex|user] eqn:HU; [intros H; inversion H|].
  destruct (process_rows _ _ _ _ _ _ _) as [[doc o1] [ex|]] eqn:E;
    intros H; inversion H.
  exists doc. split; [|reflexivity]. exists doc0, user, o1. auto.
Qed.

Lemma generate_loop_returns (e : env) (sheet : worksheet) (start cc sc rc : Z)
    (tpl : string) (pairs : list (string * Z)) (w w' : world) (o : list string) :
  for_in (generate_one e sheet start cc sc rc tpl) pairs w = (w', o, None) ->
  exists docs,
    saved w' = saved w ++ combine (map fst pairs) docs /\
    Forall2 (generated_from e sheet start cc sc rc tpl) (map snd pairs) docs.
Proof.
  revert w w' o. induction pairs as [|[name col] pairs IH]; intros w w' o;
    cbn [for_in map fst snd].
  - unfold skip. intros H. inversion H. exists []. simpl. rewrite app_nil_r. auto.
  - unfold andthen.
    destruct (generate_one e sheet start cc sc rc tpl (name, col) w)
      as [[w1 o1] [ex|]] eqn:E1; [intros H; discriminate|].
    destruct (for_in _ pairs w1) as [[w2 o2] e2] eqn:E2.
    intros H. inversion H; subst.
    apply generate_one_returns in E1. destruct E1 as [doc [Hg ->]].
    apply IH in E2. destruct E2 as [docs [Hs Hf]].
    exists (doc :: docs). split; [|now constructor].
    rewrite Hs. simpl. now rewrite <- app_assoc.
Qed.

Lemma map_fst_combine {A B : Type} (l : list A) (l' : list B) :
  map fst (combine l l') = firstn (Nat.min (List.length l) (List.length l')) l.
Proof.
  revert l'. induction l as [|a l IH]; intros [|b l']; simpl; try reflexivity.
  now rewrite IH.
Qed.

Lemma map_snd_combine {A B : Type} (l : list A) (l' : list B) :
  map snd (combine l l') = firstn (Nat.min (List.length l) (List.length l')) l'.
Proof.
  revert l'. induction l as [|a l IH]; intros [|b l']; simpl; try reflexivity.
  now rewrite IH.
Qed.

Lemma combine_firstn_r {A B : Type} (l : list A) (l' : list B) :
  combine l (firstn (List.length l) l') = combine l l'.
Proof.
  revert l'. induction l as [|a l IH]; intros [|b l']; simpl; try reflexivity.
  now rewrite IH.
Qed.

(** ** The generation driver: the claims *)



(** C10.  When one of the configured file names has no directory part (no
    slash), [ensureDirectoryExists] calls [os.makedirs] on the empty string,
    which raises [FileNotFoundError]: [generateDocxFromXlsx] raises it before
    its loop over the output files starts, so nothing is printed and no
    document is saved. *)
Theorem bare_filename_aborts_generation :
  forall e sheet start cc sc rc cols tpl names w f,
    In f names -> contains "/" f = false ->
    exists w',
      generateDocxFromXlsx e sheet start cc sc rc cols tpl names w =
        (w', [], Some (FileNotFoundError EmptyString)) /\
      saved w' = saved w.
Proof.
  intros e sheet start cc sc rc cols tpl names w f Hin Hbare.
  destruct (appendTimestampToFilenames_outcome e names [] w)
    as (acc1 & w1 & ex & Hrun & Hsaved & _ & _ & Hraise).
  rewrite Hraise in Hrun by (exists f; split; [assumption | now apply dirname_bare]).
  unfold generateDocxFromXlsx. rewrite Hrun. now exists w1.
Qed.

Lemma bare_filename_aborts_generation_witness :
  In "generatedDataFile1.docx" default_filenames /\
  contains "/" "generatedDataFile1.docx" = false /\
  exists w',
    generateDocxFromXlsx office orders 2 1 2 3 [4; 5; 6]%Z "template.docx"
      default_filenames (mk_world 0 [] []) =
      (w', [], Some (FileNotFoundError EmptyString)) /\
    saved w' = saved (mk_world 0 [] []).
Proof.
  assert (In "generatedDataFile1.docx" default_filenames) as Hin by (now left).
  split; [exact Hin|]. split; [reflexivity|].
  exact (bare_filename_aborts_generation office orders 2 1 2 3 [4; 5; 6]%Z
           "template.docx" default_filenames (mk_world 0 [] [])
           "generatedDataFile1.docx" Hin eq_refl).
Defined.

(** ** Timestamped file names: the claims *)

Import Clock.

(** The example of the docstring of [appendTimestampToFilename]. *)
Example appendTimestampToFilename_docstring :
  appendTimestampToFilename 0 1597849941000000000 "bla.txt" = "bla_2020-08-19_151221.txt".
Proof. reflexivity. Qed.

Lemma digit_inj (a b : Z) :
  (0 <= a <= 9)%Z -> (0 <= b <= 9)%Z -> digit a = digit b -> a = b.
Proof.
  intros Ha Hb H. unfold digit in H. apply (f_equal nat_of_ascii) in H.
  rewrite !nat_ascii_embedding in H by lia. lia.
Qed.

Lemma d2_inj (a b : Z) :
  (0 <= a < 100)%Z -> (0 <= b < 100)%Z -> d2 a = d2 b -> a = b.
Proof.
  intros Ha Hb H. unfold d2 in H. injection H as H1 H0.
  apply digit_inj in H1; [|Z.div_mod_to_equations; lia ..].
  apply digit_inj in H0; [|Z.div_mod_to_equations; lia ..].
  Z.div_mod_to_equations. lia.
Qed.

(** A year of four digits is printed with these four digits. *)
Lemma dec_four (y : Z) :
  (1000 <= y <= 9999)%Z ->
  dec y = String (digit (y / 10 / 10 / 10))
            (String (digit (y / 10 / 10 mod 10))
               (String (digit (y / 10 mod 10))
                  (String (digit (y mod 10)) EmptyString))).
Proof.
  intros H. unfold dec.
  assert (9 <= Z.log2 y)%Z as L.
  { change 9%Z with (Z.log2 512). apply Z.log2_le_mono. lia. }
  destruct (Z.to_nat (Z.log2 y)) as [|[|[|k]]] eqn:E; try lia.
  cbn [dec_fuel].
  destruct (Z.ltb_spec y 10); [lia|].
  destruct (Z.ltb_spec (y / 10) 10); [Z.div_mod_to_equations; lia|].
  destruct (Z.ltb_spec (y / 10 / 10) 10); [Z.div_mod_to_equations; lia|].
  destruct (Z.ltb_spec (y / 10 / 10 / 10) 10); [|Z.div_mod_to_equations; lia].
  reflexivity.
Qed.

Lemma strftime_length (t : struct_time) :
  valid_time t -> String.length (strftime t) = 17.
Proof.
  intros (Hy & _). unfold strftime. rewrite dec_four by assumption. reflexivity.
Qed.

(** Two valid broken-down times with the same timestamp are the same. *)
Lemma strftime_inj (t1 t2 : struct_time) :
  valid_time t1 -> valid_time t2 -> strftime t1 = strftime t2 -> t1 = t2.
Proof.
  destruct t1 as [y1 m1 d1 h1 n1 s1], t2 as [y2 m2 d2' h2 n2 s2].
  unfold valid_time, strftime. cbn [tm_year tm_mon tm_mday tm_hour tm_min tm_sec].
  intros (Hy1 & Hm1 & Hd1 & Hh1 & Hn1 & Hs1) (Hy2 & Hm2 & Hd2 & Hh2 & Hn2 & Hs2) H.
  rewrite !dec_four in H by assumption. unfold d2 in H. cbn [append] in H.
  injection H as Y3 Y2 Y1 Y0 M1 M0 D1 D0 H1 H0 N1 N0 S1 S0.
  assert (forall a b, (0 <= a < 100)%Z -> (0 <= b < 100)%Z ->
            digit (a / 10) = digit (b / 10) -> digit (a mod 10) = digit (b mod 10) ->
            a = b) as K.
  { intros a b Ha Hb E1 E0. apply d2_inj; [assumption..|]. unfold d2. congruence. }
  assert (y1 = y2) as ->.
  { apply digit_inj in Y3; [|Z.div_mod_to_equations; lia ..].
    apply digit_inj in Y2; [|Z.div_mod_to_equations; lia ..].
    apply digit_inj in Y1; [|Z.div_mod_to_equations; lia ..].
    apply digit_inj in Y0; [|Z.div_mod_to_equations; lia ..].
    Z.div_mod_to_equations. lia. }
  rewrite (K m1 m2), (K d1 d2'), (K h1 h2), (K n1 n2), (K s1 s2) by (assumption || lia).
  reflexivity.
Qed.





(** * Further properties of the script *)

(** ** What a replacement leaves alone *)

Lemma preserves_andthen {S C : Type} (q : S -> C) (m1 m2 : mut S) :
  preserves q m1 -> preserves q m2 -> preserves q (m1 ;; m2).
Proof.
  intros P1 P2 s. unfold andthen. specialize (P1 s).
  destruct (m1 s) as [[s1 o1] [e|]]; simpl in *; [assumption|].
  specialize (P2 s1). destruct (m2 s1) as [[s2 o2] e2]; simpl in *. congruence.
Qed.

Lemma preserves_for_each {S C : Type} (q : S -> C) (m : mut S) :
  preserves q m -> preserves (map q) (for_each m).
Proof.
  intros P l. induction l as [|x l IH]; simpl; [reflexivity|].
  specialize (P x). destruct (m x) as [[x' o1] [e|]]; simpl in *.
  - now rewrite P.
  - destruct (for_each m l) as [[l' o2] e2]; simpl in *. now rewrite P, IH.
Qed.

Lemma preserves_focus {S T C : Type} (get : S -> T) (set : T -> S -> S)
    (q : T -> C) (m : mut T) :
  (forall t s, get (set t s) = t) ->
  preserves q m -> preserves (fun s => q (get s)) (focus get set m).
Proof.
  intros GS P s. unfold focus. specialize (P (get s)).
  destruct (m (get s)) as [[t o] e]; simpl in *. now rewrite GS.
Qed.

Lemma preserves_focus_other {S T C : Type} (get : S -> T) (set : T -> S -> S)
    (q : S -> C) (m : mut T) :
  (forall t s, q (set t s) = q s) -> preserves q (focus get set m).
Proof.
  intros H s. unfold focus. destruct (m (get s)) as [[t o] e]; simpl. apply H.
Qed.

Lemma preserves_each_table {C : Type} (q : table -> C) (m : mut table) :
  preserves q m -> preserves (fun bs => map q (tables bs)) (each_table m).
Proof.
  intros P bs. unfold each_table. induction bs as [|[p|t] bs IH]; simpl; [reflexivity| |].
  - revert IH. destruct (for_each _ bs) as [[bs' o2] e2]; simpl. trivial.
  - specialize (P t). destruct (m t) as [[t' o1] [e|]]; simpl in *.
    + now rewrite P.
    + revert IH. destruct (for_each _ bs) as [[bs' o2] e2]; simpl.
      intros ->. now rewrite P.
Qed.

Lemma preserves_nested_each_paragraph (f : mut paragraph) :
  preserves nested_tables (each_paragraph f).
Proof.
  intros bs. unfold nested_tables. now rewrite keeps_tables_each_paragraph.
Qed.

Lemma preserves_nested_each_table_paragraph (f : mut paragraph) :
  preserves nested_tables (each_table_paragraph f).
Proof.
  unfold nested_tables, each_table_paragraph.
  apply (preserves_each_table (map (map tables))).
  apply (preserves_for_each (map tables)).
  apply (preserves_for_each tables).
  intros c. apply keeps_tables_each_paragraph.
Qed.

Lemma preserves_nested_section (F : string -> mut paragraph) :
  preserves (fun s => (nested_tables (header s), nested_tables (footer s)))
            (section_passes F).
Proof.
  assert (forall m : mut (list block), preserves nested_tables m ->
            preserves (fun s => (nested_tables (header s), nested_tables (footer s)))
                      (focus header set_header m)) as Hh.
  { intros m P s. unfold focus. specialize (P (header s)).
    destruct (m (header s)) as [[h o] e]; simpl in *. now rewrite P. }
  assert (forall m : mut (list block), preserves nested_tables m ->
            preserves (fun s => (nested_tables (header s), nested_tables (footer s)))
                      (focus footer set_footer m)) as Hf.
  { intros m P s. unfold focus. specialize (P (footer s)).
    destruct (m (footer s)) as [[h o] e]; simpl in *. now rewrite P. }
  unfold section_passes.
  repeat apply preserves_andthen;
    first [ apply Hh | apply Hf ];
    first [ apply preserves_nested_each_paragraph
          | apply preserves_nested_each_table_paragraph ].
Qed.

(** X1.  [replaceParagraphInDoc] never reaches a table that is nested in a
    table cell: whatever the arguments, and also when it raises, the nested
    tables of the body, of the headers and of the footers are afterwards what
    they were, with their paragraphs, whether these contain the match string
    or not. *)
Theorem replace_leaves_nested_tables :
  forall (replace content style : value) (d : document),
    document_nested_tables (fst (fst (replaceParagraphInDoc replace content style d))) =
    document_nested_tables d.
Proof.
  intros replace content style d. rewrite replaceParagraphInDoc_passes.
  generalize (replaceInParagraph (styles d) replace content style). intros F.
  revert d. change (preserves document_nested_tables (document_passes F)).
  unfold document_passes.
  assert (forall m : mut (list block), preserves nested_tables m ->
            preserves document_nested_tables (focus body set_body m)) as Hb.
  { intros m P d. unfold focus, document_nested_tables. specialize (P (body d)).
    destruct (m (body d)) as [[b o] e]; simpl in *. now rewrite P. }
  repeat apply preserves_andthen.
  - apply Hb, preserves_nested_each_paragraph.
  - apply Hb, preserves_nested_each_table_paragraph.
  - intros d. unfold focus, document_nested_tables.
    pose proof (preserves_for_each _ _ (preserves_nested_section F) (sections d)) as P.
    destruct (for_each (section_passes F) (sections d)) as [[ss o] e]; simpl in *.
    now rewrite P.
Qed.

(** ** Replacing twice *)

Lemma for_each_idle {A : Type} (m : mut A) (l : list A) :
  (forall x, In x l -> m x = (x, [], None)) -> for_each m l = (l, [], None).
Proof.
  induction l as [|x l IH]; intros H; simpl; [reflexivity|].
  rewrite (H x) by (now left). rewrite IH by (intros y Hy; apply H; now right).
  reflexivity.
Qed.

Lemma each_paragraph_idle (f : mut paragraph) (bs : list block) :
  (forall p, In p (paragraphs bs) -> f p = (p, [], None)) ->
  each_paragraph f bs = (bs, [], None).
Proof.
  intros H. unfold each_paragraph. apply for_each_idle. intros [p|t] Hin; [|reflexivity].
  rewrite H; [reflexivity|]. unfold paragraphs. apply in_flat_map.
  exists (Para p). split; [assumption | now left].
Qed.

Lemma each_table_idle (m : mut table) (bs : list block) :
  (forall t, In t (tables bs) -> m t = (t, [], None)) ->
  each_table m bs = (bs, [], None).
Proof.
  intros H. unfold each_table. apply for_each_idle. intros [p|t] Hin; [reflexivity|].
  rewrite H; [reflexivity|]. unfold tables. apply in_flat_map.
  exists (Tbl t). split; [assumption | now left].
Qed.

Lemma each_table_paragraph_idle (f : mut paragraph) (bs : list block) :
  (forall p, In p (tables_paragraphs bs) -> f p = (p, [], None)) ->
  each_table_paragraph f bs = (bs, [], None).
Proof.
  intros H. unfold each_table_paragraph. apply each_table_idle. intros t Ht.
  apply for_each_idle. intros r Hr. apply for_each_idle. intros c Hc.
  apply each_paragraph_idle. intros p Hp. apply H.
  unfold tables_paragraphs, table_paragraphs. apply in_flat_map. exists t.
  split; [assumption|]. apply in_flat_map. exists r. split; [assumption|].
  apply in_flat_map. exists c. split; assumption.
Qed.

Lemma focus_idle {S T : Type} (get : S -> T) (set : T -> S -> S) (m : mut T) (s : S) :
  set (get s) s = s -> m (get s) = (get s, [], None) ->
  focus get set m s = (s, [], None).
Proof. intros Hs Hm. unfold focus. now rewrite Hm, Hs. Qed.

Lemma andthen_idle {A : Type} (f g : mut A) (a : A) :
  f a = (a, [], None) -> g a = (a, [], None) -> (f ;; g) a = (a, [], None).
Proof. intros Hf Hg. unfold andthen. now rewrite Hf, Hg. Qed.

(** Visits that change nothing leave the document as it is. *)
Lemma document_passes_idle (F : string -> mut paragraph) (d : document) :
  (forall zp, In zp (traversal d) -> F (fst zp) (snd zp) = (snd zp, [], None)) ->
  document_passes F d = (d, [], None).
Proof.
  intros H. unfold document_passes.
  assert (forall z (ps : list paragraph),
            (forall p, In p ps -> In (z, p) (traversal d)) ->
            forall p, In p ps -> F z p = (p, [], None)) as K.
  { intros z ps Hsub p Hp. apply (H (z, p)). now apply Hsub. }
  repeat apply andthen_idle.
  - apply focus_idle; [now destruct d|]. apply each_paragraph_idle.
    apply K. intros p Hp. unfold traversal. apply in_or_app. left.
    now apply in_map.
  - apply focus_idle; [now destruct d|]. apply each_table_paragraph_idle.
    apply K. intros p Hp. unfold traversal. apply in_or_app. right.
    apply in_or_app. left. now apply in_map.
  - apply focus_idle; [now destruct d|]. apply for_each_idle. intros s Hs.
    assert (forall z (ps : list paragraph),
              (forall p, In p ps -> In (z, p) (section_locations s)) ->
              forall p, In p ps -> F z p = (p, [], None)) as Ks.
    { intros z ps Hsub. apply K. intros p Hp. unfold traversal.
      apply in_or_app. right. apply in_or_app. right. apply in_flat_map.
      exists s. split; [assumption | now apply Hsub]. }
    unfold section_passes. repeat apply andthen_idle.
    + apply focus_idle; [now destruct s|]. apply each_paragraph_idle.
      apply Ks. intros p Hp. unfold section_locations. apply in_or_app. left.
      now apply in_map.
    + apply focus_idle; [now destruct s|]. apply each_table_paragraph_idle.
      apply Ks. intros p Hp. unfold section_locations. apply in_or_app. right.
      apply in_or_app. left. now apply in_map.
    + apply focus_idle; [now destruct s|]. apply each_paragraph_idle.
      apply Ks. intros p Hp. unfold section_locations. apply in_or_app. right.
      apply in_or_app. right. apply in_or_app. left. now apply in_map.
    + apply focus_idle; [now destruct s|]. apply each_table_paragraph_idle.
      apply Ks. intros p Hp. unfold section_locations. apply in_or_app. right.
      apply in_or_app. right. apply in_or_app. right. now apply in_map.
Qed.



(** ** What the rows cannot change *)

Lemma preserves_for_in {K A C : Type} (q : A -> C) (f : K -> mut A) (ks : list K) :
  (forall k, preserves q (f k)) -> preserves q (for_in f ks).
Proof.
  intros P. induction ks as [|k ks IH]; [intros a; reflexivity|].
  cbn [for_in]. apply preserves_andthen; [apply P | exact IH].
Qed.

Lemma preserves_eval {A B C : Type} (q : A -> C) (r : exn + B) (k : B -> mut A) :
  (forall b, preserves q (k b)) -> preserves q (eval r k).
Proof. intros P a. unfold eval. destruct r as [e|b]; [reflexivity | apply P]. Qed.

Lemma apply_command_keeps_styles_author (command replace content style : value) :
  preserves (fun d => (styles d, author d)) (apply_command command replace content style).
Proof.
  intros d. unfold apply_command.
  destruct (truthy command); [|reflexivity].
  destruct (contains "replace_paragraph" (str command)).
  - rewrite replaceParagraphInDoc_passes.
    now destruct (document_passes_frame
                    (replaceInParagraph (styles d) replace content style) d) as [-> ->].
  - destruct (contains "add_paragraph" (str command)); [|reflexivity].
    destruct (truthy content); [|reflexivity].
    unfold focus. now destruct (add_paragraph _ _ _ _) as [[b o] e].
Qed.

Lemma process_rows_keeps_styles_author (sheet : worksheet) (start cc sc rc col : Z) :
  preserves (fun d => (styles d, author d)) (process_rows sheet start cc sc rc col).
Proof.
  unfold process_rows. apply preserves_for_in. intros r. unfold process_row.
  repeat (apply preserves_eval; intros ?).
  apply apply_command_keeps_styles_author.
Qed.

(** X3.  Whatever the rows hold, a document that [generate_one] saves has
    the user name of [getUsername] as its author and the style definitions
    of the template: no command of a row changes them. *)
Theorem saved_document_keeps_author_and_styles :
  forall e sheet start cc sc rc tpl name col w w' o doc0 user,
    Document e tpl = inr doc0 -> getUsername e = inr user ->
    generate_one e sheet start cc sc rc tpl (name, col) w = (w', o, None) ->
    exists doc,
      saved w' = saved w ++ [(name, doc)] /\
      author doc = user /\ styles doc = styles doc0.
Proof.
  intros e sheet start cc sc rc tpl name col w w' o doc0 user HD HU H.
  rewrite (generate_one_rows e sheet start cc sc rc col tpl name user doc0 w HD HU) in H.
  pose proof (process_rows_keeps_styles_author sheet start cc sc rc col
                (set_author user doc0)) as P.
  destruct (process_rows _ _ _ _ _ _ _) as [[doc o1] [ex|]]; [discriminate|].
  inversion H; subst. simpl in P. inversion P. exists doc. auto.
Qed.

Lemma saved_document_keeps_author_and_styles_witness :
  Document office "template.docx" = inr letter /\
  getUsername office = inr "bob" /\
  exists w' o doc,
    generate_one office orders 2 1 2 3 "template.docx" ("out/a.docx", 4%Z)
                 (mk_world 0 [] []) = (w', o, None) /\
    saved w' = saved (mk_world 0 [] []) ++ [("out/a.docx", doc)] /\
    author doc = "bob" /\ styles doc = styles letter.
Proof.
  split; [reflexivity|]. split; [reflexivity|].
  pose (r := generate_one office orders 2 1 2 3 "template.docx" ("out/a.docx", 4%Z)
               (mk_world 0 [] [])).
  assert (r = (fst (fst r), snd (fst r), None)) as Hr by (vm_compute; reflexivity).
  exists (fst (fst r)), (snd (fst r)).
  destruct (saved_document_keeps_author_and_styles office orders 2 1 2 3 "template.docx"
              "out/a.docx" 4%Z (mk_world 0 [] []) (fst (fst r)) (snd (fst r))
              letter "bob" eq_refl eq_refl Hr) as [doc Hdoc].
  exists doc. split; [exact Hr | exact Hdoc].
Defined.

(** ** The bounds of the row loop *)

Lemma range_cons (a b : Z) : (a < b)%Z -> range a b = a :: range (a + 1) b.
Proof.
  intros H. unfold range.
  replace (Z.to_nat (b - a)) with (S (Z.to_nat (b - (a + 1)))) by lia.
  cbn [seq map]. f_equal; [lia|].
  rewrite <- seq_shift, map_map. apply map_ext. intros i. lia.
Qed.

Lemma range_empty (a b : Z) : (b <= a)%Z -> range a b = [].
Proof. intros H. unfold range. now replace (Z.to_nat (b - a)) with 0 by lia. Qed.

(** X4.  Rows and columns count from 1: when [contentStartRow] or one of
    the four column indices is below 1 and the sheet has a row to read, the
    first pass of the row loop raises [ValueError] in [sheet.cell] before
    any command is run; the output file is announced and not saved. *)
Theorem index_below_one_raises :
  forall e sheet start cc sc rc col tpl name w doc0 user,
    (start <= max_row sheet)%Z ->
    (start < 1 \/ cc < 1 \/ sc < 1 \/ rc < 1 \/ col < 1)%Z ->
    (forall d, process_rows sheet start cc sc rc col d =
               (d, [], Some (ValueError "Row or column values must be at least 1"))) /\
    (Document e tpl = inr doc0 -> getUsername e = inr user ->
     generate_one e sheet start cc sc rc tpl (name, col) w =
     (w, announce name tpl user,
      Some (ValueError "Row or column values must be at least 1"))).
Proof.
  intros e sheet start cc sc rc col tpl name w doc0 user Hrows Hbad.
  assert (forall d, process_rows sheet start cc sc rc col d =
               (d, [], Some (ValueError "Row or column values must be at least 1"))) as Hp.
  { intros d. unfold process_rows. rewrite range_cons by lia. cbn [for_in].
    unfold andthen.
    assert (process_row sheet cc sc rc col start d =
            (d, [], Some (ValueError "Row or column values must be at least 1"))) as ->;
      [|reflexivity].
    unfold process_row, eval, cell_value.
    destruct (Z.ltb_spec start 1); [reflexivity|]. cbn [orb].
    destruct (Z.ltb_spec cc 1); [reflexivity|].
    destruct (Z.ltb_spec rc 1); [reflexivity|].
    destruct (Z.ltb_spec col 1); [reflexivity|].
    destruct (Z.ltb_spec sc 1); [reflexivity|]. lia. }
  split; [exact Hp|]. intros HD HU.
  rewrite (generate_one_rows e sheet start cc sc rc col tpl name user doc0 w HD HU).
  rewrite Hp. now rewrite app_nil_r.
Qed.

Lemma index_below_one_raises_witness :
  (0 <= max_row orders)%Z /\
  (0 < 1 \/ 1 < 1 \/ 2 < 1 \/ 3 < 1 \/ 4 < 1)%Z /\
  process_rows orders 0 1 2 3 4 letter =
    (letter, [], Some (ValueError "Row or column values must be at least 1")) /\
  generate_one office orders 0 1 2 3 "template.docx" ("out/a.docx", 4%Z) (mk_world 0 [] []) =
    (mk_world 0 [] [], announce "out/a.docx" "template.docx" "bob",
     Some (ValueError "Row or column values must be at least 1")).
Proof.
  assert (0 <= max_row orders)%Z as H1 by (simpl; lia).
  assert (0 < 1 \/ 1 < 1 \/ 2 < 1 \/ 3 < 1 \/ 4 < 1)%Z as H2 by (left; lia).
  destruct (index_below_one_raises office orders 0 1 2 3 4 "template.docx" "out/a.docx"
              (mk_world 0 [] []) letter "bob" H1 H2) as [Hp Hg].
  split; [exact H1|]. split; [exact H2|]. split; [apply Hp | apply Hg; reflexivity].
Defined.

(** X5.  When [contentStartRow] is beyond [max_row] the row loop does not
    run, no cell is read (so no index is checked), and the saved document is
    the template with the author set. *)
Theorem no_rows_saves_the_template :
  forall e sheet start cc sc rc col tpl name w doc0 user,
    (max_row sheet < start)%Z ->
    Document e tpl = inr doc0 -> getUsername e = inr user ->
    generate_one e sheet start cc sc rc tpl (name, col) w =
    (save name (set_author user doc0) w, announce name tpl user, None).
Proof.
  intros e sheet start cc sc rc col tpl name w doc0 user H HD HU.
  rewrite (generate_one_rows e sheet start cc sc rc col tpl name user doc0 w HD HU).
  unfold process_rows. rewrite range_empty by lia. cbn [for_in]. unfold skip.
  now rewrite app_nil_r.
Qed.

Lemma no_rows_saves_the_template_witness :
  (max_row orders < 5)%Z /\
  generate_one office orders 5 0 0 0 "template.docx" ("out/a.docx", 0%Z) (mk_world 0 [] []) =
  (save "out/a.docx" (set_author "bob" letter) (mk_world 0 [] []),
   announce "out/a.docx" "template.docx" "bob", None).
Proof.
  assert (max_row orders < 5)%Z as H by (simpl; lia).
  split; [exact H|].
  exact (no_rows_saves_the_template office orders 5 0 0 0 0 "template.docx" "out/a.docx"
           (mk_world 0 [] []) letter "bob" H eq_refl eq_refl).
Defined.

(** ** Directories and the first output file *)

Lemma makedirs_creates (dir : string) (w : world) :
  dir <> EmptyString ->
  exists w', makedirs dir w = (w', [], None) /\
             reads w' = reads w /\ saved w' = saved w /\
             In dir (dirs w') /\ incl (dirs w) (dirs w').
Proof.
  intros N. unfold makedirs. destruct dir as [|a r]; [contradiction|].
  destruct (existsb _ _) eqn:E.
  - exists w. repeat split; [|apply incl_refl].
    apply existsb_exists in E. destruct E as [x [Hin Heq]].
    apply String.eqb_eq in Heq. now subst x.
  - eexists. repeat split; cbn [dirs].
    + apply in_or_app. right. now left.
    + apply incl_appl, incl_refl.
Qed.

Lemma appendTimestampToFilenames_creates (e : env) (names acc : list string) (w : world) :
  (forall f, In f names -> Path.dirname f <> EmptyString) ->
  exists w1,
    appendTimestampToFilenames e names (acc, w) =
      ((acc ++ stamp_all e (reads w) names, w1), [], None) /\
    reads w1 = reads w + List.length names /\ saved w1 = saved w /\
    (forall f, In f names -> In (Path.dirname f) (dirs w1)) /\
    incl (dirs w) (dirs w1).
Proof.
  revert acc w. induction names as [|f names IH]; intros acc w H.
  - exists w. simpl. rewrite app_nil_r, Nat.add_0_r.
    repeat split; [intros f [] | apply incl_refl].
  - unfold appendTimestampToFilenames. cbn [for_in].
    fold (appendTimestampToFilenames e names).
    unfold andthen at 1. unfold andthen at 1. unfold focus, ensureDirectoryExists.
    cbn [fst snd].
    destruct (makedirs_creates (Path.dirname f) (tick w) (H f (or_introl eq_refl)))
      as (w' & Hm & Hr & Hs & Hin & Hincl).
    rewrite Hm. cbn [fst snd].
    destruct (IH (acc ++ [appendTimestampToFilename (utcoffset e) (clock e (reads w)) f]) w')
      as (w1 & Hrun & Hr1 & Hs1 & Hd1 & Hi1); [intros g Hg; apply H; now right|].
    rewrite Hrun. exists w1. cbn [app stamp_all List.length].
    rewrite Hr, <- app_assoc. cbn [tick reads app]. split; [reflexivity|].
    split; [rewrite Hr1, Hr; cbn [tick reads]; lia|].
    split; [now rewrite Hs1, Hs|]. split.
    + intros g [<-|Hg]; [apply Hi1, Hin | now apply Hd1].
    + intros x Hx. apply Hi1, Hincl. exact Hx.
Qed.

(** X6.  [appendTimestampToFilenames] on names that all have a directory
    part returns the timestamped names in the order of the names, each
    stamped with its own reading of the clock, and afterwards the directory
    of every configured name exists; directories that existed still do, and
    nothing is printed or saved. *)
Theorem timestamped_names_and_directories :
  forall (e : env) (names : list string) (w : world),
    (forall f, In f names -> Path.dirname f <> EmptyString) ->
    exists w1,
      appendTimestampToFilenames e names ([], w) =
        ((stamp_all e (reads w) names, w1), [], None) /\
      List.length (stamp_all e (reads w) names) = List.length names /\
      reads w1 = reads w + List.length names /\ saved w1 = saved w /\
      (forall f, In f names -> In (Path.dirname f) (dirs w1)) /\
      incl (dirs w) (dirs w1).
Proof.
  intros e names w H.
  destruct (appendTimestampToFilenames_creates e names [] w H)
    as (w1 & Hrun & Hr & Hs & Hd & Hi).
  exists w1. rewrite stamp_all_length. repeat split; assumption.
Qed.

Lemma timestamped_names_and_directories_witness :
  (forall f, In f ["out/a.docx"; "spare/b.docx"] -> Path.dirname f <> EmptyString) /\
  exists w1,
    appendTimestampToFilenames office ["out/a.docx"; "spare/b.docx"] ([], mk_world 0 ["tmp"] []) =
      ((["out/a_2020-08-19_151221.docx"; "spare/b_2020-08-19_151222.docx"], w1), [], None) /\
    reads w1 = 2 /\ dirs w1 = ["tmp"; "out"; "spare"].
Proof.
  assert (forall f, In f ["out/a.docx"; "spare/b.docx"] -> Path.dirname f <> EmptyString)
    as H by (intros f [<-|[<-|[]]]; discriminate).
  split; [exact H|].
  destruct (timestamped_names_and_directories office ["out/a.docx"; "spare/b.docx"]
              (mk_world 0 ["tmp"] []) H) as (w1 & Hrun & _ & Hr & _).
  exists w1. split; [exact Hrun|]. split; [exact Hr|].
  vm_compute in Hrun. now inversion Hrun.
Defined.

(** X7.  A template that cannot be opened, or an unset user name, aborts the
    run at the first output file: the file is announced, the exception of
    [docx.Document] or [getUsername] leaves [generateDocxFromXlsx], no
    document is saved, and the directories of all configured names were
    created before. *)
Theorem first_output_file_errors :
  forall e sheet start cc sc rc tpl n ns c cs w ex,
    (forall f, In f (n :: ns) -> Path.dirname f <> EmptyString) ->
    Document e tpl = inl ex \/
    (exists doc0, Document e tpl = inr doc0 /\ getUsername e = inl ex) ->
    exists w1,
      generateDocxFromXlsx e sheet start cc sc rc (c :: cs) tpl (n :: ns) w =
        (w1,
         [print_line EmptyString
            [(nl ++ "Generate timestamped output file: '")%string;
             appendTimestampToFilename (utcoffset e) (clock e (reads w)) n;
             "' based on template: '"; tpl; "'"]],
         Some ex) /\
      saved w1 = saved w /\
      (forall f, In f (n :: ns) -> In (Path.dirname f) (dirs w1)).
Proof.
  intros e sheet start cc sc rc tpl n ns c cs w ex Hdirs Herr.
  destruct (appendTimestampToFilenames_creates e (n :: ns) [] w Hdirs)
    as (w1 & Hrun & Hr & Hs & Hd & Hi).
  exists w1. unfold generateDocxFromXlsx. rewrite Hrun.
  cbn [app stamp_all combine for_in]. unfold andthen at 1.
  assert (generate_one e sheet start cc sc rc tpl
            (appendTimestampToFilename (utcoffset e) (clock e (reads w)) n, c) w1 =
          (w1,
           [print_line EmptyString
              [(nl ++ "Generate timestamped output file: '")%string;
               appendTimestampToFilename (utcoffset e) (clock e (reads w)) n;
               "' based on template: '"; tpl; "'"]],
           Some ex)) as ->.
  { unfold generate_one, andthen, say, eval.
    destruct Herr as [-> | [doc0 [-> ->]]]; reflexivity. }
  repeat split; assumption.
Qed.

Lemma first_output_file_errors_witness :
  (forall f, In f ["out/a.docx"; "spare/b.docx"] -> Path.dirname f <> EmptyString) /\
  exists w1,
    generateDocxFromXlsx office orders 2 1 2 3 [4; 5]%Z "missing.docx"
      ["out/a.docx"; "spare/b.docx"] (mk_world 0 [] []) =
      (w1,
       [print_line EmptyString
          [(nl ++ "Generate timestamped output file: '")%string;
           "out/a_2020-08-19_151221.docx"; "' based on template: '"; "missing.docx"; "'"]],
       Some (PackageNotFoundError "missing.docx")) /\
    saved w1 = [] /\
    (forall f, In f ["out/a.docx"; "spare/b.docx"] -> In (Path.dirname f) (dirs w1)).
Proof.
  assert (forall f, In f ["out/a.docx"; "spare/b.docx"] -> Path.dirname f <> EmptyString)
    as H by (intros f [<-|[<-|[]]]; discriminate).
  split; [exact H|].
  exact (first_output_file_errors office orders 2 1 2 3 "missing.docx" "out/a.docx"
           ["spare/b.docx"] 4%Z [5%Z] (mk_world 0 [] [])
           (PackageNotFoundError "missing.docx") H (or_introl eq_refl)).
Defined.

(** ** Extensions and directories of timestamped names *)

Lemma prefix_char (c x : ascii) (r : string) :
  prefix (String c EmptyString) (String x r) = Ascii.eqb x c.
Proof.
  simpl. destruct (ascii_dec c x) as [->|N].
  - rewrite Ascii.eqb_refl. now destruct r.
  - symmetry. apply Ascii.eqb_neq. congruence.
Qed.

Lemma contains_char_cons (c x : ascii) (r : string) :
  contains (String c EmptyString) (String x r) =
  Ascii.eqb x c || contains (String c EmptyString) r.
Proof. cbn [contains]. now rewrite prefix_char. Qed.

Lemma contains_char_app (c : ascii) (a b : string) :
  contains (String c EmptyString) (a ++ b) =
  contains (String c EmptyString) a || contains (String c EmptyString) b.
Proof.
  induction a as [|x a IH].
  - reflexivity.
  - cbn [append]. rewrite !contains_char_cons, IH. apply orb_assoc.
Qed.

Lemma rfind_from_range (c : ascii) (s : string) (i acc : Z) :
  rfind_from c s i acc = acc \/
  (i <= rfind_from c s i acc < i + Z.of_nat (String.length s))%Z.
Proof.
  revert i acc. induction s as [|a r IH]; intros i acc; [now left|].
  cbn [rfind_from String.length].
  destruct (IH (i + 1)%Z (if Ascii.eqb a c then i else acc)) as [E|E].
  - rewrite E. destruct (Ascii.eqb a c); [right; lia | now left].
  - right. lia.
Qed.

Lemma rfind_from_app_absent (c : ascii) (a b : string) (i acc : Z) :
  contains (String c EmptyString) b = false ->
  rfind_from c (a ++ b) i acc = rfind_from c a i acc.
Proof.
  intros H. revert i acc. induction a as [|x a IH]; intros i acc.
  - now apply rfind_from_absent.
  - cbn [append rfind_from]. apply IH.
Qed.

Lemma take_app_le (k : nat) (a b : string) :
  k <= String.length a -> take k (a ++ b) = take k a.
Proof.
  revert a. induction k as [|k IH]; intros a H.
  - now destruct a, b.
  - destruct a as [|x a]; [simpl in H; lia|].
    cbn [append take]. f_equal. apply IH. simpl in H. lia.
Qed.

(** After the last occurrence of a character there is none. *)
Lemma drop_after_rfind (c : ascii) (s : string) (i acc k : Z) :
  (0 <= k)%Z -> (acc < i)%Z -> (rfind_from c s i acc < i + k)%Z ->
  contains (String c EmptyString) (drop (Z.to_nat k) s) = false.
Proof.
  revert i acc k. induction s as [|a r IH]; intros i acc k Hk Hacc H.
  - now destruct (Z.to_nat k).
  - cbn [rfind_from] in H.
    destruct (Z.eq_dec k 0) as [->|Nk].
    + cbn [Z.to_nat drop]. rewrite contains_char_cons.
      destruct (Ascii.eqb a c) eqn:E.
      * destruct (rfind_from_range c r (i + 1) i); lia.
      * cbn [orb]. apply (IH (i + 1)%Z acc 0%Z); lia.
    + replace (Z.to_nat k) with (S (Z.to_nat (k - 1))) by lia. cbn [drop].
      apply (IH (i + 1)%Z (if Ascii.eqb a c then i else acc)); try lia.
      destruct (Ascii.eqb a c); lia.
Qed.

(** At its last occurrence the character stands, followed by none. *)
Lemma drop_at_rfind (c : ascii) (s : string) (i acc : Z) :
  (acc < i)%Z -> (i <= rfind_from c s i acc)%Z ->
  exists rest,
    drop (Z.to_nat (rfind_from c s i acc - i)) s = String c rest /\
    contains (String c EmptyString) rest = false.
Proof.
  revert i acc. induction s as [|a r IH]; intros i acc Hacc H.
  - simpl in H. lia.
  - cbn [rfind_from] in *.
    set (acc' := if Ascii.eqb a c then i else acc) in *.
    destruct (Z_lt_le_dec (rfind_from c r (i + 1) acc') (i + 1)) as [L|G].
    + assert (acc' = i /\ rfind_from c r (i + 1) acc' = i) as [Ha Hr].
      { destruct (rfind_from_range c r (i + 1) acc') as [E|E]; [|lia].
        unfold acc' in *. destruct (Ascii.eqb a c); [split; congruence | lia]. }
      rewrite Hr, Z.sub_diag. cbn [Z.to_nat drop].
      assert (a = c) as ->.
      { unfold acc' in Ha. destruct (Ascii.eqb_spec a c); [assumption | lia]. }
      exists r. split; [reflexivity|]. rewrite Ha in Hr.
      apply (drop_after_rfind c r (i + 1) i 0); lia.
    + destruct (IH (i + 1)%Z acc') as [rest [Hd Hc]];
        [unfold acc'; destruct (Ascii.eqb a c); lia | exact G |].
      exists rest. split; [|exact Hc].
      replace (Z.to_nat (rfind_from c r (i + 1) acc' - i))
        with (S (Z.to_nat (rfind_from c r (i + 1) acc' - (i + 1)))) by lia.
      exact Hd.
Qed.

Lemma splitext_ext_cases (p : string) :
  snd (Path.splitext p) = EmptyString \/
  ((rfind Path.sep p < rfind Path.extsep p)%Z /\
   snd (Path.splitext p) = drop (Z.to_nat (rfind Path.extsep p)) p).
Proof.
  unfold Path.splitext.
  destruct (Z.ltb_spec (rfind Path.sep p) (rfind Path.extsep p)); [|now left].
  destruct (all_chars _ _); [now left | right; split; [assumption | reflexivity]].
Qed.

(** The extension holds no slash. *)
Lemma splitext_ext_no_sep (p : string) :
  contains "/" (snd (Path.splitext p)) = false.
Proof.
  destruct (splitext_ext_cases p) as [-> | [L ->]]; [reflexivity|].
  unfold rfind in *.
  apply (drop_after_rfind Path.sep p 0 (-1)); try lia.
  destruct (rfind_from_range Path.sep p 0 (-1)); lia.
Qed.

(** X8.  The extension that [os.path.splitext] gives
    [appendTimestampToFilename] is empty, or a dot followed by characters
    that are neither a dot nor a slash (so of [archive.tar.gz] only [.gz] is
    the extension); a name without any dot has no extension, and its
    timestamp is appended at the end. *)
Theorem extension_is_last_dot_suffix :
  forall (utcoffset now : Z) (filename : string),
    (snd (Path.splitext filename) = EmptyString \/
     exists r, snd (Path.splitext filename) = String "." r /\
               contains "." r = false /\ contains "/" r = false) /\
    (contains "." filename = false ->
     appendTimestampToFilename utcoffset now filename =
     (filename ++ "_" ++ getCurrentTimeAsString utcoffset now)%string).
Proof.
  intros utcoffset now filename. split.
  - pose proof (splitext_ext_no_sep filename) as Hs.
    destruct (splitext_ext_cases filename) as [E | [L E]]; [now left|]. right.
    unfold rfind in *.
    destruct (drop_at_rfind Path.extsep filename 0 (-1)) as [rest [Hd Hc]]; [lia | |].
    { destruct (rfind_from_range Path.sep filename 0 (-1)); lia. }
    rewrite Z.sub_0_r in Hd. exists rest. rewrite E in *. rewrite Hd in *.
    split; [reflexivity|]. split; [exact Hc|].
    rewrite contains_char_cons in Hs. now apply orb_false_iff in Hs.
  - intros H. unfold appendTimestampToFilename, Path.splitext, rfind.
    rewrite (rfind_from_absent Path.extsep filename 0 (-1)) by exact H.
    destruct (Z.ltb_spec (rfind_from Path.sep filename 0 (-1)) (-1)).
    + destruct (rfind_from_range Path.sep filename 0 (-1)); lia.
    + now rewrite string_app_nil_r.
Qed.

Lemma extension_is_last_dot_suffix_witness :
  snd (Path.splitext "out/archive.tar.gz") = ".gz" /\
  contains "." "out/README" = false /\
  appendTimestampToFilename 0 1597849941000000000 "out/README" =
    "out/README_2020-08-19_151221".
Proof.
  destruct (extension_is_last_dot_suffix 0 1597849941000000000 "out/README") as [_ H].
  split; [reflexivity|]. split; [reflexivity|]. exact (H eq_refl).
Defined.

Lemma dirname_app_no_sep (a x : string) :
  contains "/" x = false -> Path.dirname (a ++ x) = Path.dirname a.
Proof.
  intros H. unfold Path.dirname, rfind, Path.sep.
  rewrite rfind_from_app_absent by exact H.
  rewrite take_app_le; [reflexivity|].
  destruct (rfind_from_range "/" a 0 (-1)); lia.
Qed.

Lemma digit_not_sep (x : Z) (r : string) :
  (0 <= x <= 9)%Z -> contains "/" (String (digit x) r) = contains "/" r.
Proof.
  intros H. rewrite contains_char_cons.
  assert (Ascii.eqb (digit x) "/" = false) as ->; [|reflexivity].
  apply Ascii.eqb_neq. intros E. unfold digit in E.
  apply (f_equal nat_of_ascii) in E. rewrite nat_ascii_embedding in E by lia.
  assert (nat_of_ascii "/" = 47) as K by reflexivity. rewrite K in E. lia.
Qed.

Lemma strftime_no_sep (t : struct_time) :
  valid_time t -> contains "/" (strftime t) = false.
Proof.
  destruct t as [y m d h n s]. unfold valid_time, strftime.
  cbn [tm_year tm_mon tm_mday tm_hour tm_min tm_sec].
  intros (Hy & Hm & Hd & Hh & Hn & Hs).
  rewrite dec_four by assumption. unfold d2. cbn [append].
  repeat first
    [ rewrite digit_not_sep by (Z.div_mod_to_equations; lia)
    | rewrite (contains_char_cons "/" "-") | rewrite (contains_char_cons "/" "_")
    | cbn [orb Ascii.eqb Bool.eqb] ].
  reflexivity.
Qed.

(** X9.  The timestamped name lies in the directory of the configured name:
    the directory that [ensureDirectoryExists] creates for a configured name
    is the one its document is saved in. *)
Theorem timestamped_name_same_directory :
  forall (utcoffset now : Z) (filename : string),
    valid_time (localtime utcoffset now) ->
    Path.dirname (appendTimestampToFilename utcoffset now filename) =
    Path.dirname filename.
Proof.
  intros utcoffset now filename V.
  pose proof (splitext_app filename) as Happ.
  pose proof (splitext_ext_no_sep filename) as Hext.
  unfold appendTimestampToFilename, getCurrentTimeAsString.
  destruct (Path.splitext filename) as [name ext]. cbn [fst snd] in *.
  rewrite <- Happ.
  rewrite !dirname_app_no_sep; [reflexivity | exact Hext |].
  change ("_" ++ strftime (localtime utcoffset now) ++ ext)%string
    with (String "_" (strftime (localtime utcoffset now) ++ ext)).
  rewrite contains_char_cons, contains_char_app, strftime_no_sep, Hext by exact V.
  reflexivity.
Qed.

Lemma timestamped_name_same_directory_witness :
  valid_time (localtime 3600 1597849941000000000) /\
  Path.dirname (appendTimestampToFilename 3600 1597849941000000000 "out/letters/a.b.docx") =
  Path.dirname "out/letters/a.b.docx".
Proof.
  assert (valid_time (localtime 3600 1597849941000000000)) as V
    by (unfold valid_time; vm_compute; repeat split; discriminate).
  split; [exact V|].
  exact (timestamped_name_same_directory 3600 1597849941000000000 "out/letters/a.b.docx" V).
Defined.

(** ** The configuration and the workbook *)

Lemma assoc_in {V : Type} (k : string) (l : list (string * V)) :
  In k (map fst l) -> exists v, assoc k l = Some v.
Proof.
  unfold assoc. induction l as [|[k' v'] l IH]; intros H; [contradiction|].
  cbn [find fst]. destruct (String.eqb_spec k' k) as [->|N].
  - now exists v'.
  - destruct H as [H|H]; [contradiction | now apply IH].
Qed.

Lemma assoc_not_in {V : Type} (k : string) (l : list (string * V)) :
  ~ In k (map fst l) -> assoc k l = None.
Proof.
  unfold assoc. induction l as [|[k' v'] l IH]; intros H; [reflexivity|].
  cbn [find fst]. destruct (String.eqb_spec k' k) as [->|N].
  - exfalso. apply H. now left.
  - apply IH. intros Hin. apply H. now right.
Qed.

(** Listing the worksheets prints and does nothing else. *)
Lemma printAvailableWorksheetsIn_lines {A : Type} (f : string) (wb : workbook)
    (n : string) (a : A) :
  printAvailableWorksheetsIn f wb n a =
  (a, print_line EmptyString ["Available worksheets in '"; f; "' are: "] ::
      available_lines wb n, None).
Proof.
  unfold printAvailableWorksheetsIn, andthen, say at 1, available_lines.
  assert (forall names, incl names (sheetnames wb) ->
            for_in (fun sheetname =>
                      eval (sheet_by_name wb sheetname) (fun sheet =>
                        say (A := A) (worksheet_line sheetname sheet n))) names a =
            (a, flat_map (fun sheetname =>
                   match sheet_by_name wb sheetname with
                   | inr sheet => [worksheet_line sheetname sheet n]
                   | inl _ => []
                   end) names, None)) as K.
  { intros names Hsub. apply for_in_idle. intros k Hk.
    destruct (assoc_in k wb (Hsub k Hk)) as [ws Hws].
    unfold eval, sheet_by_name, say. now rewrite Hws. }
  rewrite K by apply incl_refl. reflexivity.
Qed.

Lemma generate_from_sheet_absent (wb : workbook) (n : string)
    (g : worksheet -> mut world) (names : list string) (w : world) :
  ~ In n names -> generate_from_sheet wb n g names w = (w, [], None).
Proof.
  induction names as [|k names IH]; intros H; [reflexivity|].
  cbn [generate_from_sheet]. destruct (String.eqb_spec k n) as [->|N].
  - exfalso. apply H. now left.
  - apply IH. intros Hin. apply H. now right.
Qed.

Lemma generate_from_sheet_present (wb : workbook) (n : string)
    (g : worksheet -> mut world) (names : list string) (w : world) :
  In n names -> generate_from_sheet wb n g names w = eval (sheet_by_name wb n) g w.
Proof.
  induction names as [|k names IH]; intros H; [contradiction|].
  cbn [generate_from_sheet]. destruct (String.eqb_spec k n) as [->|N]; [reflexivity|].
  destruct H as [H|H]; [contradiction | now apply IH].
Qed.

Section ScriptFacts.

Variable load_workbook : string -> exn + workbook.
Variable show_columns : list Z -> string.
Variable show_filenames : list string -> string.

#[local] Abbreviation run_xlx2docx := (xlx2docx load_workbook show_columns show_filenames).
#[local] Abbreviation run_main := (main load_workbook show_columns show_filenames).
#[local] Abbreviation text_of st :=
  (configuration_text show_columns show_filenames
     (s_filename st) (s_contentSheetname st) (s_contentStartRow st)
     (s_commandColumn st) (s_styleColumn st) (s_replaceColumn st)
     (s_contentColumns st) (s_templateFilename st) (s_outputFilenames st)).

(** With all nine settings, [xlx2docx] prints them, loads the workbook,
    lists its sheets and runs the loop over the sheet names. *)
Lemma xlx2docx_complete (e : env) (c : config) (st : settings) (w : world) :
  settings_of c = Some st ->
  run_xlx2docx e c w =
  (say (text_of st) ;;
   eval (load_workbook (s_filename st)) (fun wb =>
     printAvailableWorksheetsIn (s_filename st) wb (s_contentSheetname st) ;;
     generate_from_sheet wb (s_contentSheetname st)
       (fun sheet =>
          generateDocxFromXlsx e sheet (s_contentStartRow st) (s_commandColumn st)
            (s_styleColumn st) (s_replaceColumn st) (s_contentColumns st)
            (s_templateFilename st) (s_outputFilenames st))
       (sheetnames wb))) w.
Proof.
  unfold settings_of, xlx2docx.
  destruct (sourceData c) as [sd|]; [|discriminate].
  destruct (template c) as [td|]; [|discriminate].
  destruct (generatedData c) as [gd|]; [|discriminate].
  destruct sd as [[f|] [n|] [r|] [cc|] [sc|] [rc|] [cols|]]; try discriminate.
  destruct td as [[t|]]; try discriminate.
  destruct gd as [[outs|]]; try discriminate.
  intros H. inversion H. reflexivity.
Qed.

(** X10.  [xlx2docx] reads its nine settings first: a configuration that
    lacks a table or a key raises [KeyError] before anything is printed,
    loaded or written; and when the workbook cannot be loaded the exception
    of [load_workbook] leaves [xlx2docx] after the configuration was printed,
    the world unchanged. *)
Theorem configuration_errors_come_first :
  forall (e : env) (c : config) (w : world),
    (settings_of c = None ->
     exists key, run_xlx2docx e c w = (w, [], Some (KeyError key))) /\
    (forall st ex,
       settings_of c = Some st -> load_workbook (s_filename st) = inl ex ->
       run_xlx2docx e c w = (w, [text_of st], Some ex)).
Proof.
  intros e c w. split.
  - unfold settings_of, xlx2docx, eval, item2, item.
    destruct (sourceData c) as [sd|]; [|intros _; eexists; reflexivity].
    destruct sd as [[f|] [n|] [r|] [cc|] [sc|] [rc|] [cols|]];
      cbn [sd_filename sd_contentSheetname sd_contentStartRow sd_commandColumn
           sd_styleColumn sd_replaceColumn sd_contentColumns];
      try (intros _; eexists; reflexivity).
    destruct (template c) as [[[t|]]|];
      cbn [td_filename]; try (intros _; eexists; reflexivity).
    destruct (generatedData c) as [[[outs|]]|];
      cbn [gd_filenames]; try (intros _; eexists; reflexivity).
    discriminate.
  - intros st ex Hs Hl. rewrite (xlx2docx_complete e c st w Hs).
    unfold andthen, say, eval. now rewrite Hl.
Qed.

(** X11.  When the workbook has no sheet of the configured name, [xlx2docx]
    prints the configuration and the list of the sheets, none of them
    marked, and returns: nothing is generated and no error is raised. *)
Theorem missing_sheet_generates_nothing :
  forall (e : env) (c : config) (st : settings) (wb : workbook) (w : world),
    settings_of c = Some st ->
    load_workbook (s_filename st) = inr wb ->
    ~ In (s_contentSheetname st) (sheetnames wb) ->
    run_xlx2docx e c w =
      (w,
       text_of st ::
       print_line EmptyString ["Available worksheets in '"; s_filename st; "' are: "] ::
       available_lines wb (s_contentSheetname st),
       None) /\
    Forall (fun line => exists name sheet,
              In (name, sheet) wb /\
              line = print_line " " [name; (tab ++ "max_row:")%string;
                                     str_int (max_row sheet);
                                     (tab ++ "max_column:")%string;
                                     str_int (max_column sheet)])
           (available_lines wb (s_contentSheetname st)).
Proof.
  intros e c st wb w Hs Hl Hn. split.
  - rewrite (xlx2docx_complete e c st w Hs).
    unfold andthen at 1, say at 1, eval. rewrite Hl.
    unfold andthen. rewrite printAvailableWorksheetsIn_lines.
    rewrite generate_from_sheet_absent by assumption.
    now rewrite app_nil_r.
  - apply Forall_forall. intros line Hin. unfold available_lines in Hin.
    apply in_flat_map in Hin. destruct Hin as [name [Hname Hline]].
    unfold sheet_by_name, assoc in Hline.
    destruct (find _ wb) as [[k ws]|] eqn:F; [|contradiction].
    apply find_some in F. destruct F as [Hin Heq]. cbn [fst snd] in *.
    apply String.eqb_eq in Heq. subst k.
    destruct Hline as [<-|[]]. exists name, ws. split; [assumption|].
    unfold worksheet_line.
    destruct (String.eqb_spec name (s_contentSheetname st)) as [->|N];
      [contradiction | apply string_app_nil_r].
Qed.

(** X12.  When the workbook has a sheet of the configured name, [xlx2docx]
    is [generateDocxFromXlsx] on the first sheet of that name with the
    settings of the configuration, run once after the configuration and the
    list of the sheets were printed: same world, same exception, and the
    printed lines follow those. *)
Theorem present_sheet_is_generated_once :
  forall (e : env) (c : config) (st : settings) (wb : workbook) (w : world),
    settings_of c = Some st ->
    load_workbook (s_filename st) = inr wb ->
    In (s_contentSheetname st) (sheetnames wb) ->
    exists sheet,
      sheet_by_name wb (s_contentSheetname st) = inr sheet /\
      In (s_contentSheetname st, sheet) wb /\
      run_xlx2docx e c w =
      (let '(w', o, ex) :=
         generateDocxFromXlsx e sheet (s_contentStartRow st) (s_commandColumn st)
           (s_styleColumn st) (s_replaceColumn st) (s_contentColumns st)
           (s_templateFilename st) (s_outputFilenames st) w in
       (w',
        text_of st ::
        print_line EmptyString ["Available worksheets in '"; s_filename st; "' are: "] ::
        available_lines wb (s_contentSheetname st) ++ o,
        ex)).
Proof.
  intros e c st wb w Hs Hl Hin.
  destruct (assoc_in _ wb Hin) as [sheet Hsheet].
  exists sheet.
  assert (sheet_by_name wb (s_contentSheetname st) = inr sheet) as Hby
    by (unfold sheet_by_name; now rewrite Hsheet).
  split; [exact Hby|]. split.
  - unfold assoc in Hsheet. destruct (find _ wb) as [[k ws]|] eqn:F; [|discriminate].
    apply find_some in F. destruct F as [Hin' Heq]. cbn [fst snd] in *.
    apply String.eqb_eq in Heq. inversion Hsheet. now subst.
  - rewrite (xlx2docx_complete e c st w Hs).
    unfold andthen at 1, say at 1, eval. rewrite Hl.
    unfold andthen. rewrite printAvailableWorksheetsIn_lines.
    rewrite generate_from_sheet_present by assumption.
    unfold eval. rewrite Hby.
    destruct (generateDocxFromXlsx _ _ _ _ _ _ _ _ _ _) as [[w' o] ex].
    reflexivity.
Qed.

(** ** The configuration file and the command line *)

Lemma loadConfiguration_existing (name : string) (k : config -> mut site)
    (c : config) (s : site) :
  assoc name (config_files s) = Some c -> loadConfiguration name k s = k c s.
Proof.
  intros H. unfold loadConfiguration, andthen, skip, eval. rewrite H.
  cbn beta iota. rewrite H. now destruct (k c s) as [[s' o] ex].
Qed.

Lemma loadConfiguration_missing (name : string) (k : config -> mut site) (s : site) :
  assoc name (config_files s) = None ->
  loadConfiguration name k s =
  (let '(s', o, ex) :=
     k default_config (mk_site ((name, default_config) :: config_files s) (site_world s)) in
   (s', default_written_lines name ++ o, ex)).
Proof.
  intros H. unfold loadConfiguration, andthen at 1. rewrite H.
  unfold generateDefaultConfigurationTomlFile, default_written_lines, andthen, say, skip.
  cbn [for_in andthen app fst snd]. unfold andthen, say, skip, eval, assoc.
  cbn [find fst snd config_files]. rewrite String.eqb_refl. cbn [snd].
  destruct (k default_config _) as [[s' o] ex]. reflexivity.
Qed.


(** [main] looks at its first argument only: [--version] and [--help] in
    that place print and exit without touching a file, whatever follows; any
    other first argument is the configuration file, and the script name and
    the arguments after the first never matter. *)
Lemma only_the_first_argument_counts :
  forall (e : env) (file prog prog' arg : string) (rest : list string) (s : site),
    run_main e file (prog :: "--version" :: rest) s =
      (s, [(file ++ " V" ++ version)%string], Exited) /\
    run_main e file (prog :: "--help" :: rest) s = (s, usage_lines file, Exited) /\
    run_main e file (prog :: arg :: rest) s = run_main e file [prog'; arg] s /\
    run_main e file [prog] s = run_main e file [] s.
Proof. intros. repeat split. Qed.

(** The default configuration cannot save a document: its output names have
    no directory part. *)
Lemma xlx2docx_default_config (e : env) (w : world) :
  exists w' o ex,
    run_xlx2docx e default_config w = (w', o, ex) /\
    saved w' = saved w /\
    (forall wb, load_workbook "sourceDataExample.xlsx" = inr wb ->
                In "Content" (sheetnames wb) ->
                ex = Some (FileNotFoundError EmptyString)).
Proof.
  pose (st := mk_settings "sourceDataExample.xlsx" "Content" 2 1 2 3 [4; 5; 6]%Z
                "src/xlsx2docx-byColumns_TemplateExample.docx" default_filenames).
  rewrite (xlx2docx_complete e default_config st w eq_refl).
  unfold andthen at 1, say at 1, eval. cbn [s_filename st].
  destruct (load_workbook "sourceDataExample.xlsx") as [ex|wb].
  - eexists _, _, _. split; [reflexivity|]. split; [reflexivity|]. discriminate.
  - unfold andthen. rewrite printAvailableWorksheetsIn_lines. cbn [s_contentSheetname st].
    destruct (in_dec string_dec "Content" (sheetnames wb)) as [Hin|Hout].
    + rewrite generate_from_sheet_present by assumption. unfold eval.
      destruct (assoc_in _ wb Hin) as [sheet Hsheet].
      unfold sheet_by_name. rewrite Hsheet.
      cbn [s_contentStartRow s_commandColumn s_styleColumn s_replaceColumn
           s_contentColumns s_templateFilename s_outputFilenames st].
      unfold generateDocxFromXlsx.
      destruct (appendTimestampToFilenames_outcome e default_filenames [] w)
        as (acc1 & w1 & ex & Hrun & Hsaved & _ & _ & Hraise).
      rewrite Hraise in Hrun.
      2:{ exists "generatedDataFile1.docx". split; [now left | reflexivity]. }
      rewrite Hrun. eexists _, _, _. split; [reflexivity|].
      split; [exact Hsaved|]. intros wb' Hwb _. reflexivity.
    + rewrite generate_from_sheet_absent by assumption.
      eexists _, _, _. split; [reflexivity|]. split; [reflexivity|].
      intros wb' Hwb Hin. inversion Hwb; subst wb'. contradiction.
Qed.


End ScriptFacts.

(** ** Examples for the configuration and the command line *)

Lemma configuration_errors_come_first_witness :
  settings_of incomplete_config = None /\
  xlx2docx shelf show_integers show_strings office incomplete_config (mk_world 0 [] []) =
    (mk_world 0 [] [], [], Some (KeyError "template")) /\
  settings_of (office_config "Content") = Some (office_settings "Content") /\
  (fun f => inl (FileNotFoundError f)) (s_filename (office_settings "Content")) =
    inl (A := exn) (B := workbook) (FileNotFoundError "data.xlsx") /\
  snd (xlx2docx (fun f => inl (FileNotFoundError f)) show_integers show_strings office
         (office_config "Content") (mk_world 0 [] [])) =
    Some (FileNotFoundError "data.xlsx").
Proof.
  split; [reflexivity|]. split.
  - destruct (proj1 (configuration_errors_come_first shelf show_integers show_strings
                       office incomplete_config (mk_world 0 [] [])) eq_refl) as [key H].
    rewrite H. vm_compute in H. now inversion H.
  - split; [reflexivity|]. split; [reflexivity|].
    now rewrite (proj2 (configuration_errors_come_first
                          (fun f => inl (FileNotFoundError f)) show_integers show_strings
                          office (office_config "Content") (mk_world 0 [] []))
                       (office_settings "Content") (FileNotFoundError "data.xlsx")
                       eq_refl eq_refl).
Defined.

Lemma missing_sheet_generates_nothing_witness :
  settings_of (office_config "Letters") = Some (office_settings "Letters") /\
  shelf "data.xlsx" = inr [("Notes", remarks); ("Content", orders)] /\
  ~ In "Letters" (sheetnames [("Notes", remarks); ("Content", orders)]) /\
  xlx2docx shelf show_integers show_strings office (office_config "Letters")
           (mk_world 0 [] []) =
    (mk_world 0 [] [],
     [configuration_text show_integers show_strings "data.xlsx" "Letters" 2 1 2 3
        [4; 5]%Z "template.docx" ["out/a.docx"; "out/b.docx"];
      "Available worksheets in 'data.xlsx' are: ";
      print_line " " ["Notes"; (tab ++ "max_row:")%string; "4";
                      (tab ++ "max_column:")%string; "4"];
      print_line " " ["Content"; (tab ++ "max_row:")%string; "4";
                      (tab ++ "max_column:")%string; "5"]],
     None).
Proof.
  assert (~ In "Letters" (sheetnames [("Notes", remarks); ("Content", orders)])) as Hn
    by (intros [H|[H|[]]]; discriminate).
  split; [reflexivity|]. split; [reflexivity|]. split; [exact Hn|].
  exact (proj1 (missing_sheet_generates_nothing shelf show_integers show_strings office
                  (office_config "Letters") (office_settings "Letters")
                  [("Notes", remarks); ("Content", orders)] (mk_world 0 [] [])
                  eq_refl eq_refl Hn)).
Defined.

Lemma present_sheet_is_generated_once_witness :
  settings_of (office_config "Content") = Some (office_settings "Content") /\
  shelf "data.xlsx" = inr [("Notes", remarks); ("Content", orders)] /\
  In "Content" (sheetnames [("Notes", remarks); ("Content", orders)]) /\
  exists sheet,
    sheet_by_name [("Notes", remarks); ("Content", orders)] "Content" = inr sheet /\
    In ("Content", sheet) [("Notes", remarks); ("Content", orders)] /\
    xlx2docx shelf show_integers show_strings office (office_config "Content")
             (mk_world 0 [] []) =
    (let '(w', o, ex) :=
       generateDocxFromXlsx office sheet 2 1 2 3 [4; 5]%Z "template.docx"
         ["out/a.docx"; "out/b.docx"] (mk_world 0 [] []) in
     (w',
      configuration_text show_integers show_strings "data.xlsx" "Content" 2 1 2 3
        [4; 5]%Z "template.docx" ["out/a.docx"; "out/b.docx"] ::
      "Available worksheets in 'data.xlsx' are: " ::
      available_lines [("Notes", remarks); ("Content", orders)] "Content" ++ o,
      ex)).
Proof.
  assert (In "Content" (sheetnames [("Notes", remarks); ("Content", orders)])) as Hin
    by (right; now left).
  split; [reflexivity|]. split; [reflexivity|]. split; [exact Hin|].
  exact (present_sheet_is_generated_once shelf show_integers show_strings office
           (office_config "Content") (office_settings "Content")
           [("Notes", remarks); ("Content", orders)] (mk_world 0 [] [])
           eq_refl eq_refl Hin).
Defined.



(** ** One replacement after another *)


